(** * Transit ingestion models: the [set_from_api] mappers

    A shallow embedding of [busstops/stops/models.py].  The four Django
    models [Stop], [Route], [Trip] and [TripStop] each carry one method,
    [set_from_api], that copies fields of a JSON-decoded payload into the
    record.  The methods mutate [self] in place and may raise half-way, so
    they are embedded in a state-and-exception monad whose state survives
    a raise. *)

From Stdlib Require Import ZArith String Ascii List Bool Lia.
From Stdlib Require Import Floats.PrimFloat Floats.SpecFloat Floats.FloatOps.
From stdpp Require Import base option list gmap.

Set Warnings "-inexact-float,-register-all".
Local Open Scope string_scope.
Local Open Scope Z_scope.

(** ** Python values

    What [json.loads] can return: [None], booleans, integers, floats
    (IEEE binary64), strings, lists and dicts.  A dict is kept as an
    association list with the binding looked up first shadowing later
    ones. *)

Inductive value : Type :=
| VNone
| VBool (b : bool)
| VInt (n : Z)
| VFloat (f : float)
| VStr (s : string)
| VList (items : list value)
| VDict (entries : list (string * value)).

(** An exception message: either a literal, or a format string together
    with the tuple it is applied to by [%] (kept unrendered). *)
Inductive message : Type :=
| Msg (text : string)
| Fmt (format : string) (args : list value).

Inductive exn : Type :=
| KeyError (key : string)
| TypeError (m : message)
| ValueError (m : message)
| OverflowError (m : message)
| GEOSException (m : message)
| DoesNotExist
| MultipleObjectsReturned.

Inductive result (A : Type) : Type :=
| Ok (a : A)
| Raise (e : exn).
Arguments Ok {A} a.
Arguments Raise {A} e.

#[global] Instance result_ret : MRet result := fun A a => Ok a.
#[global] Instance result_bind : MBind result := fun A B f r =>
  match r with
  | Ok a => f a
  | Raise e => Raise e
  end.

(** ** Mutation of [self] with exceptions

    [M S A] is a computation over a mutable state [S] that returns an
    [A] or raises.  The state reached when the exception is raised is
    returned too: Python does not roll back attribute assignments. *)

Definition M (S A : Type) : Type := S -> S * result A.

#[global] Instance M_ret {S} : MRet (M S) := fun A a s => (s, Ok a).
#[global] Instance M_bind {S} : MBind (M S) := fun A B f m s =>
  match m s with
  | (s', Ok a) => f a s'
  | (s', Raise e) => (s', Raise e)
  end.

Definition get {S} : M S S := fun s => (s, Ok s).
Definition modify {S} (f : S -> S) : M S unit := fun s => (f s, Ok tt).
Definition raise {S A} (e : exn) : M S A := fun s => (s, Raise e).
Definition lift {S A} (r : result A) : M S A := fun s => (s, r).

(** ** Builtins used by the mappers *)

Definition dict_lookup (key : string) (entries : list (string * value))
  : option value :=
  snd <$> List.find (fun kv => String.eqb (fst kv) key) entries.

(** [obj[key]] with a string key. *)
Definition getitem (obj : value) (key : string) : result value :=
  match obj with
  | VDict entries =>
      match dict_lookup key entries with
      | Some v => Ok v
      | None => Raise (KeyError key)
      end
  | VStr _ => Raise (TypeError (Msg "string indices must be integers"))
  | VList _ => Raise (TypeError (Msg "list indices must be integers, not unicode"))
  | _ => Raise (TypeError (Msg "object has no attribute '__getitem__'"))
  end.

(** [obj[:n]]: the first [n] characters of a string, the first [n]
    items of a list. *)
Definition slice_to (n : nat) (obj : value) : result value :=
  match obj with
  | VStr s => Ok (VStr (String.substring 0 n s))
  | VList items => Ok (VList (firstn n items))
  | _ => Raise (TypeError (Msg "object has no attribute '__getitem__'"))
  end.

(** Truth value of an object, and [a or b]. *)
Definition truthy (v : value) : bool :=
  match v with
  | VNone => false
  | VBool b => b
  | VInt n => negb (n =? 0)
  | VFloat f => negb (PrimFloat.eqb f 0%float)
  | VStr s => negb (String.eqb s "")
  | VList items => match items with [] => false | _ => true end
  | VDict entries => match entries with [] => false | _ => true end
  end.

Definition py_or (a b : value) : value := if truthy a then a else b.

(** *** [int(x)] *)

Definition is_space (c : ascii) : bool :=
  let n := nat_of_ascii c in
  (Nat.eqb n 32 || (Nat.leb 9 n && Nat.leb n 13))%bool.

Definition digit_of (c : ascii) : option Z :=
  let n := nat_of_ascii c in
  if (Nat.leb 48 n && Nat.leb n 57)%bool then Some (Z.of_nat n - 48) else None.

Fixpoint lstrip (s : string) : string :=
  match s with
  | String c s' => if is_space c then lstrip s' else s
  | EmptyString => EmptyString
  end.

Fixpoint all_space (s : string) : bool :=
  match s with
  | String c s' => (is_space c && all_space s')%bool
  | EmptyString => true
  end.

(** Decimal digits, then nothing but trailing white space. *)
Fixpoint parse_digits (acc : Z) (s : string) : option Z :=
  match s with
  | EmptyString => Some acc
  | String c s' =>
      match digit_of c with
      | Some d => parse_digits (10 * acc + d) s'
      | None => if all_space s then Some acc else None
      end
  end.

Definition parse_unsigned (s : string) : option Z :=
  match s with
  | String c _ =>
      match digit_of c with
      | Some _ => parse_digits 0 s
      | None => None
      end
  | EmptyString => None
  end.

(** [int] of a string: optional surrounding white space, an optional
    sign, at least one decimal digit. *)
Definition parse_int (s : string) : option Z :=
  match lstrip s with
  | String "-"%char s' => Z.opp <$> parse_unsigned s'
  | String "+"%char s' => parse_unsigned s'
  | s' => parse_unsigned s'
  end.

(** Truncation toward zero of a double, given by its IEEE-754 value. *)
Definition trunc_sf (x : spec_float) : result Z :=
  match x with
  | S754_zero _ => Ok 0
  | S754_infinity _ =>
      Raise (OverflowError (Msg "cannot convert float infinity to integer"))
  | S754_nan => Raise (ValueError (Msg "cannot convert float NaN to integer"))
  | S754_finite s m e =>
      let a := if 0 <=? e then Z.pos m * 2 ^ e else Z.pos m / 2 ^ (- e) in
      Ok (if s then - a else a)
  end.

(** [int] of a float truncates toward zero. *)
Definition trunc_float (f : float) : result Z := trunc_sf (Prim2SF f).

Definition py_int (v : value) : result Z :=
  match v with
  | VInt n => Ok n
  | VBool b => Ok (if b then 1 else 0)
  | VFloat f => trunc_float f
  | VStr s =>
      match parse_int s with
      | Some n => Ok n
      | None => Raise (ValueError (Fmt "invalid literal for int() with base 10: %r" [v]))
      end
  | _ => Raise (TypeError (Msg "int() argument must be a string or a number"))
  end.

(** Conversion of a Python integer to a C double, rounding to nearest
    even; an integer beyond the double range is an error. *)
Definition double_of_int (n : Z) : result spec_float :=
  match binary_normalize prec emax n 0 false with
  | S754_infinity _ =>
      Raise (OverflowError (Msg "long int too large to convert to float"))
  | sf => Ok sf
  end.

Definition float_of_int (n : Z) : result float :=
  sf ← double_of_int n; mret (SF2Prim sf).

Definition is_number (v : value) : bool :=
  match v with
  | VInt _ | VFloat _ | VBool _ => true
  | _ => false
  end.

Definition to_double (v : value) : result float :=
  match v with
  | VFloat f => Ok f
  | VInt n => float_of_int n
  | VBool b => Ok (if b then 1%float else 0%float)
  | _ => Raise (TypeError (Msg "a float is required"))
  end.

Definition py_len (v : value) : result nat :=
  match v with
  | VStr s => Ok (String.length s)
  | VList items => Ok (List.length items)
  | VDict entries => Ok (List.length entries)
  | _ => Raise (TypeError (Msg "object has no len()"))
  end.

(** The items a [for] loop (or a comprehension) draws from an object. *)
Definition py_iter (v : value) : result (list value) :=
  match v with
  | VList items => Ok items
  | VStr s => Ok (map (fun c => VStr (String c EmptyString)) (list_ascii_of_string s))
  | VDict entries => Ok (map (fun kv => VStr (fst kv)) entries)
  | _ => Raise (TypeError (Msg "object is not iterable"))
  end.

(** ** The geometry constructors of [django.contrib.gis.geos]

    Library code, modelled as far as the mappers exercise it: which
    arguments are accepted and which coordinates the geometry holds.
    The constructors are those of the Django releases the repository was
    written against (1.5 and 1.6), where a line string cannot be
    empty. *)

Module geos.

Record Point : Type := mkPoint { x : float; y : float; z : option float }.

(** [Point(x, y)].  A list in first position is taken as the whole
    coordinate tuple; otherwise both arguments must be numbers. *)
Definition Point_new (x y : value) : result Point :=
  match x with
  | VList [a; b] =>
      cx ← to_double a; cy ← to_double b; mret (mkPoint cx cy None)
  | VList [a; b; c] =>
      cx ← to_double a; cy ← to_double b; cz ← to_double c;
      mret (mkPoint cx cy (Some cz))
  | VList _ => Raise (TypeError (Msg "Invalid point dimension"))
  | _ =>
      if (is_number x && is_number y)%bool then
        cx ← to_double x; cy ← to_double y; mret (mkPoint cx cy None)
      else
        Raise (TypeError (Msg "Invalid parameters given for Point initialization."))
  end.

(** A line string is its coordinate sequence, one tuple per vertex. *)
Record LineString : Type := mkLineString { coords : list (list float) }.

(** The check made on every vertex after the first. *)
Definition check_vertex (ndim : nat) (c : value) : result unit :=
  match c with
  | VList items =>
      if Nat.eqb (List.length items) ndim then Ok tt
      else Raise (TypeError (Msg "Dimension mismatch."))
  | _ =>
      Raise (TypeError (Msg "each coordinate should be a sequence (list or tuple)"))
  end.

(** Storing one vertex into the coordinate sequence. *)
Definition set_vertex (ndim : nat) (c : value) : result (list float) :=
  match c with
  | VList items =>
      if Nat.eqb (List.length items) ndim then mapM to_double items
      else Raise (TypeError (Msg "Dimension of value does not match."))
  | _ =>
      Raise (TypeError (Msg "Must set coordinate with a sequence (list, tuple, or numpy array)."))
  end.

(** [LineString] applied to its positional arguments.  A single argument is itself the sequence of
    vertices; several arguments are the vertices.  The sequence must
    not be empty, the first vertex fixes the dimension (2 or 3), and
    GEOS refuses a line of exactly one vertex. *)
Definition LineString_new (args : list value) : result LineString :=
  vertices ← match args with
             | [a] =>
                 match a with
                 | VList items => Ok items
                 | _ => Raise (TypeError (Msg "Invalid initialization input for LineStrings."))
                 end
             | _ => Ok args
             end;
  match vertices with
  | [] => Raise (TypeError (Msg "Cannot initialize on empty sequence."))
  | first :: rest =>
      ndim ← py_len first;
      if (Nat.eqb ndim 2 || Nat.eqb ndim 3)%bool then
        mapM (check_vertex ndim) rest;;
        cs ← mapM (set_vertex ndim) vertices;
        match rest with
        | [] => Raise (GEOSException (Msg "Error encountered checking Geometry returned from GEOS C function"))
        | _ => Ok (mkLineString cs)
        end
      else Raise (TypeError (Msg "Dimension mismatch."))
  end.

End geos.

(** ** [time.gmtime] and [datetime.time] *)

Module time.

(** Only the time-of-day fields are read by the mappers; the calendar
    fields of the broken-down time are left out. *)
Record struct_time : Type :=
  mk_struct_time { tm_hour : Z; tm_min : Z; tm_sec : Z }.

(** With a 64-bit [time_t] the C library breaks down exactly the
    timestamps whose calendar year fits [tm_year] (a C [int]): from
    the first second of year -2147481748 to the last second of year
    2147485547. *)
Definition TIME_T_MIN : Z := - 2 ^ 63.
Definition TIME_T_MAX : Z := 2 ^ 63 - 1.
Definition GMTIME_MIN : Z := -67768040609740800.
Definition GMTIME_MAX : Z := 67768036191676799.

(** [time.gmtime(secs)] for an integer [secs].  CPython 2 reads the
    argument as a C double and casts it to [time_t], refusing a value
    that does not fit; the C library then breaks the timestamp down. *)
Definition gmtime (secs : Z) : result struct_time :=
  when ← double_of_int secs;
  t ← trunc_sf when;
  if negb ((TIME_T_MIN <=? t) && (t <=? TIME_T_MAX))%bool then
    Raise (ValueError (Msg "timestamp out of range for platform time_t"))
  else if negb ((GMTIME_MIN <=? t) && (t <=? GMTIME_MAX))%bool then
    Raise (ValueError (Msg "(75, 'Value too large for defined data type')"))
  else
    let rem := t mod 86400 in
    Ok (mk_struct_time (rem / 3600) (rem mod 3600 / 60) (rem mod 60)).

End time.

Module datetime.

Record time : Type := mkTime { hour : Z; minute : Z; second : Z }.

(** [datetime.time(hour, minute, second)] validates its fields. *)
Definition time_new (h m s : Z) : result time :=
  if negb ((0 <=? h) && (h <? 24))%bool then
    Raise (ValueError (Msg "hour must be in 0..23"))
  else if negb ((0 <=? m) && (m <? 60))%bool then
    Raise (ValueError (Msg "minute must be in 0..59"))
  else if negb ((0 <=? s) && (s <? 60))%bool then
    Raise (ValueError (Msg "second must be in 0..59"))
  else Ok (mkTime h m s).

End datetime.

(** ** The models

    Each model is a record of its columns.  [id] is the integer primary
    key, [None] on a record that has not been given one.  [created_at]
    and [modified_at] are opaque timestamps.  Columns assigned straight
    from the payload hold whatever Python value the payload supplied. *)

Module Stop.

Record t : Type := mk {
  created_at : Z;
  modified_at : Z;
  id : option Z;
  stop_code : option Z;
  stop_name : value;
  geom : option geos.Point
}.

(** [Stop()] *)
Definition new (now : Z) : t := mk now now None None (VStr "") None.

Definition set_stop_code (v : option Z) (self : t) : t :=
  mk (created_at self) (modified_at self) (id self) v (stop_name self) (geom self).
Definition set_stop_name (v : value) (self : t) : t :=
  mk (created_at self) (modified_at self) (id self) (stop_code self) v (geom self).
Definition set_geom (v : option geos.Point) (self : t) : t :=
  mk (created_at self) (modified_at self) (id self) (stop_code self) (stop_name self) v.

Definition mismatch (db_id : Z) (api_id : value) : exn :=
  ValueError (Fmt "Stop #%s in database can't be set with stop #%s from api."
                  [VInt db_id; api_id]).

Definition set_from_api (api_data : value) : M t unit :=
  self ← get;
  match id self with
  | Some i =>
      n ← lift (getitem api_data "stop_id" ≫= py_int);
      if negb (n =? i) then
        v ← lift (getitem api_data "stop_id");
        raise (mismatch i v)
      else mret tt
  | None => mret tt
  end;;
  code ← lift (getitem api_data "stop_code" ≫= py_int);
  modify (set_stop_code (Some code));;
  name ← lift (getitem api_data "stop_name" ≫= slice_to 300);
  modify (set_stop_name name);;
  point ← lift (lon ← getitem api_data "stop_lon";
                lat ← getitem api_data "stop_lat";
                geos.Point_new lon lat);
  modify (set_geom (Some point)).

End Stop.

Module Route.

Record t : Type := mk {
  created_at : Z;
  modified_at : Z;
  id : option Z;
  route_short_name : value;
  route_long_name : value;
  route_desc : value;
  route_color : value;
  route_text_color : value
}.

(** [Route()]: the colours start at their declared default. *)
Definition new (now : Z) : t :=
  mk now now None VNone VNone VNone (VStr "000000") (VStr "000000").

Definition set_route_short_name (v : value) (self : t) : t :=
  mk (created_at self) (modified_at self) (id self) v (route_long_name self)
     (route_desc self) (route_color self) (route_text_color self).
Definition set_route_long_name (v : value) (self : t) : t :=
  mk (created_at self) (modified_at self) (id self) (route_short_name self) v
     (route_desc self) (route_color self) (route_text_color self).
Definition set_route_desc (v : value) (self : t) : t :=
  mk (created_at self) (modified_at self) (id self) (route_short_name self)
     (route_long_name self) v (route_color self) (route_text_color self).
Definition set_route_color (v : value) (self : t) : t :=
  mk (created_at self) (modified_at self) (id self) (route_short_name self)
     (route_long_name self) (route_desc self) v (route_text_color self).
Definition set_route_text_color (v : value) (self : t) : t :=
  mk (created_at self) (modified_at self) (id self) (route_short_name self)
     (route_long_name self) (route_desc self) (route_color self) v.

Definition mismatch (db_id : Z) (api_id : value) : exn :=
  ValueError (Fmt "Route` #%s in database can't be set with route #%s from api."
                  [VInt db_id; api_id]).

Definition set_from_api (api_data : value) : M t unit :=
  self ← get;
  match id self with
  | Some i =>
      n ← lift (getitem api_data "route_id" ≫= py_int);
      if negb (n =? i) then
        v ← lift (getitem api_data "route_id");
        raise (mismatch i v)
      else mret tt
  | None => mret tt
  end;;
  short ← lift (getitem api_data "route_short_name" ≫= slice_to 300);
  modify (set_route_short_name short);;
  long ← lift (getitem api_data "route_long_name" ≫= slice_to 300);
  modify (set_route_long_name long);;
  desc ← lift (getitem api_data "route_desc");
  modify (set_route_desc (py_or desc VNone));;
  color ← lift (getitem api_data "route_color");
  modify (set_route_color (py_or color VNone));;
  text_color ← lift (getitem api_data "route_text_color");
  modify (set_route_text_color (py_or text_color VNone)).

End Route.

Module Trip.

(** The model declares no route column. *)
Record t : Type := mk {
  created_at : Z;
  modified_at : Z;
  id : option Z;
  trip_headsign : value;
  geom : option geos.LineString
}.

(** [Trip()] *)
Definition new (now : Z) : t := mk now now None (VStr "") None.

Definition set_trip_headsign (v : value) (self : t) : t :=
  mk (created_at self) (modified_at self) (id self) v (geom self).
Definition set_geom (v : option geos.LineString) (self : t) : t :=
  mk (created_at self) (modified_at self) (id self) (trip_headsign self) v.

Definition mismatch (db_id : Z) (api_id : value) : exn :=
  ValueError (Fmt "Trip` #%s in database can't be set with trip #%s from api."
                  [VInt db_id; api_id]).

Definition set_from_api (api_data : value) : M t unit :=
  self ← get;
  match id self with
  | Some i =>
      n ← lift (getitem api_data "route_id" ≫= py_int);
      if negb (n =? i) then
        v ← lift (getitem api_data "route_id");
        raise (mismatch i v)
      else mret tt
  | None => mret tt
  end;;
  headsign ← lift (getitem api_data "trip_headsign" ≫= slice_to 300);
  modify (set_trip_headsign headsign);;
  line ← lift (geometry ← getitem api_data "geometry";
               coordinates ← getitem geometry "coordinates";
               vertices ← py_iter coordinates;
               geos.LineString_new vertices);
  modify (set_geom (Some line)).

End Trip.

(** ** [TripStop] and the object store

    [TripStop.set_from_api] stores references to other model instances,
    so it runs over a store of objects addressed by reference, next to
    the rows of the stops table that [Stop.objects.get] reads. *)

Module TripStop.

Definition ref : Type := positive.

Record t : Type := mk {
  created_at : Z;
  modified_at : Z;
  id : option Z;
  trip : option ref;
  stop : option ref;
  arrival_time : option datetime.time;
  departure_time : option datetime.time;
  stop_sequence : option Z
}.

(** [TripStop()] *)
Definition new (now : Z) : t := mk now now None None None None None None.

Definition set_trip (v : option ref) (self : t) : t :=
  mk (created_at self) (modified_at self) (id self) v (stop self)
     (arrival_time self) (departure_time self) (stop_sequence self).
Definition set_stop (v : option ref) (self : t) : t :=
  mk (created_at self) (modified_at self) (id self) (trip self) v
     (arrival_time self) (departure_time self) (stop_sequence self).
Definition set_arrival_time (v : option datetime.time) (self : t) : t :=
  mk (created_at self) (modified_at self) (id self) (trip self) (stop self)
     v (departure_time self) (stop_sequence self).
Definition set_departure_time (v : option datetime.time) (self : t) : t :=
  mk (created_at self) (modified_at self) (id self) (trip self) (stop self)
     (arrival_time self) v (stop_sequence self).
Definition set_stop_sequence (v : option Z) (self : t) : t :=
  mk (created_at self) (modified_at self) (id self) (trip self) (stop self)
     (arrival_time self) (departure_time self) v.

Inductive object : Type :=
| OStop (s : Stop.t)
| ORoute (r : Route.t)
| OTrip (tr : Trip.t)
| OTripStop (ts : t).

Record world : Type := mkWorld {
  heap : gmap ref object;
  stops_table : list Stop.t
}.

(** Attribute assignment on the [TripStop] at [self]. *)
Definition on_tripstop (f : t -> t) (o : object) : object :=
  match o with
  | OTripStop ts => OTripStop (f ts)
  | _ => o
  end.

Definition setattr (self : ref) (f : t -> t) : M world unit :=
  modify (fun w => mkWorld (alter (on_tripstop f) self (heap w)) (stops_table w)).

Definition has_id (k : Z) (row : Stop.t) : bool :=
  match Stop.id row with
  | Some i => i =? k
  | None => false
  end.

(** [Stop.objects.get(id=k)]: exactly one matching row is wanted; it is
    returned as a newly built instance. *)
Definition Stop_objects_get (k : Z) : M world ref :=
  w ← get;
  match List.filter (has_id k) (stops_table w) with
  | [] => raise DoesNotExist
  | [row] =>
      let r := fresh (dom (heap w)) in
      modify (fun w => mkWorld (<[r := OStop row]> (heap w)) (stops_table w));;
      mret r
  | _ => raise MultipleObjectsReturned
  end.

(** Assignment to the [trip] foreign key: the related-object
    descriptor only accepts a [Trip] instance. *)
Definition assign_trip (self trip : ref) : M world unit :=
  w ← get;
  match heap w !! trip with
  | Some (OTrip _) => setattr self (set_trip (Some trip))
  | _ => raise (ValueError (Msg "Cannot assign: TripStop.trip must be a Trip instance."))
  end.

(** [datetime.time(t.tm_hour, t.tm_min, t.tm_sec)] for
    [t = time.gmtime(secs)]. *)
Definition time_of_secs (secs : Z) : result datetime.time :=
  tm ← time.gmtime secs;
  datetime.time_new (time.tm_hour tm) (time.tm_min tm) (time.tm_sec tm).

Definition set_from_api (self : ref) (api_data : value) (trip : ref)
  : M world unit :=
  w ← get;
  match heap w !! self with
  | Some (OTripStop _) =>
      assign_trip self trip;;
      k ← lift (stop ← getitem api_data "stop";
                getitem stop "stop_id" ≫= py_int);
      s ← Stop_objects_get k;
      setattr self (set_stop (Some s));;
      arrival ← lift (secs ← getitem api_data "arrival_time" ≫= py_int;
                      time_of_secs secs);
      setattr self (set_arrival_time (Some arrival));;
      departure ← lift (secs ← getitem api_data "departure_time" ≫= py_int;
                        time_of_secs secs);
      setattr self (set_departure_time (Some departure));;
      seq ← lift (getitem api_data "stop_sequence" ≫= py_int);
      setattr self (set_stop_sequence (Some seq))
  | _ =>
      raise (TypeError (Msg "unbound method set_from_api() must be called with TripStop instance as first argument"))
  end.

End TripStop.

(** ** Calling a method with positional arguments

    What a caller can pass: a decoded payload or a model instance.
    [Trip.set_from_api] is declared as [set_from_api(self, api_data)]. *)

Inductive argument : Type :=
| AValue (v : value)
| AStop (s : Stop.t)
| ARoute (r : Route.t)
| ATrip (tr : Trip.t).

Definition Trip_set_from_api_call (args : list argument) : M Trip.t unit :=
  match args with
  | [AValue api_data] => Trip.set_from_api api_data
  | [_] => raise (TypeError (Msg "object has no attribute '__getitem__'"))
  | _ =>
      raise (TypeError (Fmt "set_from_api() takes exactly 2 arguments (%d given)"
                            [VInt (1 + Z.of_nat (List.length args))]))
  end.

(** ** Sample payloads and records

    The payloads of the repository's examples and tests, and records as
    they would come out of the database. *)

Definition stop_payload : value :=
  VDict [("stop_id", VStr "1884");
         ("stop_code", VStr "21884");
         ("stop_name", VStr "EAST WEST HWY & CONNECTICUT AVE");
         ("stop_lat", VFloat 38.987993%float);
         ("stop_lon", VFloat (-77.076255)%float);
         ("zone_id", VNone);
         ("stop_url", VNone);
         ("location_type", VNone);
         ("parent_station", VNone);
         ("uri", VStr "/stops/21884");
         ("geometry", VDict [("type", VStr "Point");
                             ("coordinates", VList [VFloat (-77.076255)%float;
                                                    VFloat 38.987993%float])])].

Definition route_payload : value :=
  VDict [("route_id", VStr "2777");
         ("agency_id", VStr "MCRO");
         ("route_short_name", VStr " 44");
         ("route_long_name", VStr "Twinbrook-Rockville");
         ("route_desc", VNone);
         ("route_type", VInt 3);
         ("route_url", VNone);
         ("route_color", VStr "0000FF");
         ("route_text_color", VStr "FFFFFF");
         ("uri", VStr "/routes/2777")].

(** A vertex [[lon, lat]] of a trip's geometry, as the payload has it
    and as the line string holds it. *)
Definition pair_value (p : float * float) : value :=
  VList [VFloat (fst p); VFloat (snd p)].

Definition pair_coords (p : float * float) : list float := [fst p; snd p].

(** The payload of trip 425677 with the given [route_id] and vertices. *)
Definition trip_payload (route_id : string) (vertices : list value) : value :=
  VDict [("trip_id", VStr "425677");
         ("route_id", VStr route_id);
         ("trip_headsign", VStr "Twinbrook");
         ("uri", VStr "/trips/425677");
         ("geometry", VDict [("type", VStr "LineString");
                             ("coordinates", VList vertices)])].

Definition two_vertices : list (float * float) :=
  [((-77.147223)%float, 39.084786%float); ((-77.1473)%float, 39.084788%float)].

(** The trip-stop payload of the repository's examples, with the given
    arrival and departure values. *)
Definition trip_stop_payload (arrival departure : Z) : value :=
  VDict [("arrival_time", VInt arrival);
         ("departure_time", VInt departure);
         ("stop_sequence", VInt 2);
         ("stop", VDict [("stop_name", VStr "MONROE ST & MONROE PL");
                         ("stop_code", VStr "24150");
                         ("stop_id", VStr "4150");
                         ("uri", VStr "/stops/4150")])].

(** Records already stored under an id. *)
Definition stored_stop (id : Z) : Stop.t :=
  Stop.mk 0 0 (Some id) (Some 20000) (VStr "OLD NAME") None.

Definition stored_route (id : Z) : Route.t :=
  Route.mk 0 0 (Some id) (VStr "1") (VStr "Old") VNone (VStr "000000") (VStr "000000").

Definition stored_trip (id : Z) : Trip.t :=
  Trip.mk 0 0 (Some id) (VStr "Old") None.

(** A stop name of 400 characters. *)
Definition long_name : string :=
  String.concat "" (repeat "ROCKVILLE " 40).

Definition long_name_payload : value :=
  VDict [("stop_id", VStr "1884");
         ("stop_code", VStr "21884");
         ("stop_name", VStr long_name);
         ("stop_lat", VFloat 38.987993%float);
         ("stop_lon", VFloat (-77.076255)%float)].

(** A route payload whose description and colours are empty or null. *)
Definition empty_fields_route_payload : value :=
  VDict [("route_id", VStr "2777");
         ("route_short_name", VStr " 44");
         ("route_long_name", VStr "Twinbrook-Rockville");
         ("route_desc", VStr "");
         ("route_color", VStr "");
         ("route_text_color", VNone)].

(** A store holding a new [TripStop] at 1 and a [Trip] at 2, and a stops
    table with the stops 1884 and 4150. *)
Definition sample_world : TripStop.world :=
  TripStop.mkWorld
    {[ 1%positive := TripStop.OTripStop (TripStop.new 0);
       2%positive := TripStop.OTrip (stored_trip 425677) ]}
    [stored_stop 1884; stored_stop 4150].

(** ** Vocabulary of the statements *)

(** The record's id, when set, is the integer the payload's id field
    parses to: the condition under which the identity check passes. *)
Definition id_agrees (id : option Z) (api_id : result value) : Prop :=
  match id with
  | None => True
  | Some i => exists v, api_id = Ok v /\ py_int v = Ok i
  end.

(** [preserves R m]: whatever [m] does, and whether it returns or
    raises, the state it leaves is related by [R] to the state it
    started in. *)
Definition preserves {S A} (R : S -> S -> Prop) (m : M S A) : Prop :=
  forall s, R s (fst (m s)).

(** The relation of leaving an observation [f] of the state as it was. *)
Definition keeps {S B} (f : S -> B) : S -> S -> Prop :=
  fun s s' => f s' = f s.

(** [raises m]: [m] raises from every state. *)
Definition raises {S A} (m : M S A) : Prop :=
  forall s, exists e, snd (m s) = Raise e.

(** What a call on the [TripStop] at [self] may change: the stops table
    stays as it is, every other object already in the store stays as it
    is, and [self] stays a [TripStop] with its timestamps and id. *)
Definition frame (self : TripStop.ref) (w w' : TripStop.world) : Prop :=
  TripStop.stops_table w' = TripStop.stops_table w
  /\ (forall l o, l <> self ->
        TripStop.heap w !! l = Some o -> TripStop.heap w' !! l = Some o)
  /\ (forall ts, TripStop.heap w !! self = Some (TripStop.OTripStop ts) ->
        exists ts',
          TripStop.heap w' !! self = Some (TripStop.OTripStop ts')
          /\ TripStop.created_at ts' = TripStop.created_at ts
          /\ TripStop.modified_at ts' = TripStop.modified_at ts
          /\ TripStop.id ts' = TripStop.id ts).

(** The time of day as the specification words it: the integer reduced
    modulo 86400, the remainder split into hour, minute and second. *)
Definition seconds_of_day_time (secs : Z) : datetime.time :=
  let rem := secs mod 86400 in
  datetime.mkTime (rem / 3600) (rem mod 3600 / 60) (rem mod 60).

(** The store after a returning [TripStop.set_from_api]: the trip is
    assigned, the row found in the stops table becomes a new [Stop]
    object, and the other four attributes are assigned in turn. *)
Definition trip_assigned (w : TripStop.world) (self trip : TripStop.ref)
  : TripStop.world :=
  TripStop.mkWorld
    (alter (TripStop.on_tripstop (TripStop.set_trip (Some trip))) self
           (TripStop.heap w))
    (TripStop.stops_table w).

Definition populated (w : TripStop.world) (self trip : TripStop.ref)
    (row : Stop.t) (arrival departure : datetime.time) (seq : Z)
  : TripStop.world :=
  let w1 := trip_assigned w self trip in
  let r := fresh (dom (TripStop.heap w1)) in
  TripStop.mkWorld
    (alter (TripStop.on_tripstop (TripStop.set_stop_sequence (Some seq))) self
       (alter (TripStop.on_tripstop (TripStop.set_departure_time (Some departure))) self
          (alter (TripStop.on_tripstop (TripStop.set_arrival_time (Some arrival))) self
             (alter (TripStop.on_tripstop (TripStop.set_stop (Some r))) self
                (<[r := TripStop.OStop row]> (TripStop.heap w1))))))
    (TripStop.stops_table w).

(** ** Further sample data *)

(** A stop payload whose coordinates are JSON integers. *)
Definition integer_point_payload : value :=
  VDict [("stop_id", VStr "1884");
         ("stop_code", VStr "21884");
         ("stop_name", VStr "EAST WEST HWY & CONNECTICUT AVE");
         ("stop_lat", VInt 39);
         ("stop_lon", VInt (-77))].

(** A stop payload whose code is not a number. *)
Definition bad_code_payload : value :=
  VDict [("stop_id", VStr "1884");
         ("stop_code", VStr "n/a");
         ("stop_name", VStr "EAST WEST HWY & CONNECTICUT AVE");
         ("stop_lat", VFloat 38.987993%float);
         ("stop_lon", VFloat (-77.076255)%float)].

(** A stop payload whose longitude is a string. *)
Definition bad_point_payload : value :=
  VDict [("stop_id", VStr "1884");
         ("stop_code", VStr "21884");
         ("stop_name", VStr "EAST WEST HWY & CONNECTICUT AVE");
         ("stop_lat", VFloat 38.987993%float);
         ("stop_lon", VStr "-77.076255")].

(** A second stop payload, for another stop. *)
Definition other_stop_payload : value :=
  VDict [("stop_id", VStr "4150");
         ("stop_code", VStr "24150");
         ("stop_name", VStr "MONROE ST & MONROE PL");
         ("stop_lat", VFloat 39.084786%float);
         ("stop_lon", VFloat (-77.147223)%float)].

(** A route payload with every text field filled, the names being over
    long, and one that lacks [route_desc]. *)
Definition full_route_payload : value :=
  VDict [("route_id", VStr "2777");
         ("route_short_name", VStr long_name);
         ("route_long_name", VStr long_name);
         ("route_desc", VStr "Twinbrook to Rockville");
         ("route_color", VStr "0000FF");
         ("route_text_color", VStr "FFFFFF")].

Definition route_payload_without_desc : value :=
  VDict [("route_id", VStr "2777");
         ("route_short_name", VStr " 44");
         ("route_long_name", VStr "Twinbrook-Rockville");
         ("route_color", VStr "0000FF");
         ("route_text_color", VStr "FFFFFF")].

(** The trip payload of the repository's test: it has no [route_id]. *)
Definition test_trip_payload : value :=
  VDict [("trip_id", VStr "425677");
         ("trip_headsign", VStr "Twinbrook");
         ("trip_short_name", VStr "425677");
         ("shape_id", VStr "425677");
         ("service_id", VStr "425677");
         ("direction_id", VStr "425677");
         ("start_time", VStr "425677");
         ("end_time", VStr "425677");
         ("first_stop_name", VStr "425677");
         ("last_stop_name", VStr "425677");
         ("uri", VStr "/trips/425677");
         ("geometry",
          VDict [("type", VStr "LineString");
                 ("coordinates",
                  VList [pair_value ((-77.147223)%float, 39.084786%float);
                         pair_value ((-77.1473)%float, 39.084788%float);
                         pair_value ((-77.14736)%float, 39.084778%float);
                         pair_value ((-77.147406)%float, 39.084755%float)])])].

(** Vertices of which the second has a third coordinate. *)
Definition mixed_vertices : list value :=
  [VList [VFloat 1%float; VFloat 2%float];
   VList [VFloat 3%float; VFloat 4%float; VFloat 5%float]].

(** The trip-stop payload of the repository's test: it has no [stop]. *)
Definition test_trip_stop_payload : value :=
  VDict [("arrival_time", VInt 67504);
         ("departure_time", VInt 67707);
         ("stop_sequence", VInt 2)].

(** A trip-stop payload with the given position in the trip. *)
Definition sequenced_payload (seq : Z) : value :=
  VDict [("arrival_time", VInt 67504);
         ("departure_time", VInt 67707);
         ("stop_sequence", VInt seq);
         ("stop", VDict [("stop_id", VStr "4150")])].

(** The sample store over another stops table. *)
Definition world_with_stops (rows : list Stop.t) : TripStop.world :=
  TripStop.mkWorld (TripStop.heap sample_world) rows.

(** [stored] is [s] cut to at most [n] characters: [s] itself when it
    is short enough, its prefix of length [n] otherwise. *)
Definition is_truncation (n : nat) (s stored : string) : Prop :=
  ((String.length s <= n)%nat -> stored = s)
  /\ ((n < String.length s)%nat ->
      String.length stored = n /\ exists rest, s = String.append stored rest).

(** A time of day within its ranges. *)
Definition valid_time (t : datetime.time) : Prop :=
  0 <= datetime.hour t < 24
  /\ 0 <= datetime.minute t < 60
  /\ 0 <= datetime.second t < 60.

(** The conditions under which [TripStop.set_from_api] goes through:
    [self] is a [TripStop] and [trip] a [Trip], a stop id can be read
    from the payload and exactly one row of the stops table has it, both
    times can be read and converted, and the sequence number can be
    read. *)
Definition can_populate (w : TripStop.world) (self trip : TripStop.ref)
    (api_data : value) : Prop :=
  exists ts tr k row arr dep arrival departure seq,
    TripStop.heap w !! self = Some (TripStop.OTripStop ts)
    /\ TripStop.heap w !! trip = Some (TripStop.OTrip tr)
    /\ (stop ← getitem api_data "stop"; getitem stop "stop_id" ≫= py_int)
       = Ok k
    /\ List.filter (TripStop.has_id k) (TripStop.stops_table w) = [row]
    /\ getitem api_data "arrival_time" ≫= py_int = Ok arr
    /\ TripStop.time_of_secs arr = Ok arrival
    /\ getitem api_data "departure_time" ≫= py_int = Ok dep
    /\ TripStop.time_of_secs dep = Ok departure
    /\ getitem api_data "stop_sequence" ≫= py_int = Ok seq.

(** A store with two new [TripStop]s, at 1 and 3, and a [Trip] at 2. *)
Definition two_tripstops_world : TripStop.world :=
  TripStop.mkWorld
    {[ 1%positive := TripStop.OTripStop (TripStop.new 0);
       2%positive := TripStop.OTrip (stored_trip 425677);
       3%positive := TripStop.OTripStop (TripStop.new 0) ]}
    [stored_stop 1884; stored_stop 4150].

(** The store once both times are assigned and the sequence number is
    still to be read. *)
Definition times_stored (w : TripStop.world) (self trip : TripStop.ref)
    (row : Stop.t) (arrival departure : datetime.time) : TripStop.world :=
  let w1 := trip_assigned w self trip in
  let r := fresh (dom (TripStop.heap w1)) in
  TripStop.mkWorld
    (alter (TripStop.on_tripstop (TripStop.set_departure_time (Some departure))) self
       (alter (TripStop.on_tripstop (TripStop.set_arrival_time (Some arrival))) self
          (alter (TripStop.on_tripstop (TripStop.set_stop (Some r))) self
             (<[r := TripStop.OStop row]> (TripStop.heap w1)))))
    (TripStop.stops_table w).

(** A trip-stop payload that has no [stop_sequence]. *)
Definition payload_without_sequence : value :=
  VDict [("arrival_time", VInt 67504);
         ("departure_time", VInt 67707);
         ("stop", VDict [("stop_id", VStr "4150")])].

(** * Properties *)

(** ** Relations kept by a computation *)

Section Preserves.
Context {S : Type} (R : S -> S -> Prop).
Context `{!Reflexive R, !Transitive R}.

Lemma preserves_ret {A} (a : A) : preserves R (mret a).
Proof. intros s. reflexivity. Qed.

Lemma preserves_get : preserves R get.
Proof. intros s. reflexivity. Qed.

Lemma preserves_raise {A} (e : exn) : preserves R (raise e : M S A).
Proof. intros s. reflexivity. Qed.

Lemma preserves_lift {A} (r : result A) : preserves R (lift r).
Proof. intros s. reflexivity. Qed.

Lemma preserves_modify (f : S -> S) :
  (forall s, R s (f s)) -> preserves R (modify f).
Proof. intros Hf s. apply Hf. Qed.

Lemma preserves_bind {A B} (m : M S A) (k : A -> M S B) :
  preserves R m -> (forall a, preserves R (k a)) -> preserves R (m ≫= k).
Proof.
  intros Hm Hk s. unfold mbind, M_bind.
  specialize (Hm s). destruct (m s) as [s1 [a|e]]; simpl in *.
  - transitivity s1; [exact Hm | apply Hk].
  - exact Hm.
Qed.

End Preserves.

#[global] Instance keeps_refl {S B} (f : S -> B) : Reflexive (keeps f).
Proof. intros s. reflexivity. Qed.

#[global] Instance keeps_trans {S B} (f : S -> B) : Transitive (keeps f).
Proof. intros s1 s2 s3 H12 H23. unfold keeps in *. congruence. Qed.

Ltac preserves_step :=
  lazymatch goal with
  | |- preserves _ (_ ≫= _) => apply preserves_bind; [apply _ | | intros ?]
  | |- preserves _ (@mret _ _ _ _) => apply preserves_ret; apply _
  | |- preserves _ get => apply preserves_get; apply _
  | |- preserves _ (raise _) => apply preserves_raise; apply _
  | |- preserves _ (lift _) => apply preserves_lift; apply _
  | |- preserves _ (match ?x with _ => _ end) => destruct x
  end.

Ltac preserves_steps := repeat preserves_step.

(** ** Runs that return, runs that raise *)

Lemma bind_Ok_inv {S A B} (m : M S A) (k : A -> M S B) (s s' : S) (b : B) :
  (m ≫= k) s = (s', Ok b) ->
  exists a s1, m s = (s1, Ok a) /\ k a s1 = (s', Ok b).
Proof.
  unfold mbind, M_bind. destruct (m s) as [s1 [a|e]]; intros H.
  - exists a, s1. split; [reflexivity | exact H].
  - discriminate H.
Qed.

Lemma lift_Ok_inv {S A} (r : result A) (s s' : S) (a : A) :
  lift r s = (s', Ok a) -> s' = s /\ r = Ok a.
Proof. unfold lift. intros [= -> ->]. split; reflexivity. Qed.

Lemma result_bind_Ok_inv {A B} (r : result A) (k : A -> result B) (b : B) :
  r ≫= k = Ok b -> exists a, r = Ok a /\ k a = Ok b.
Proof.
  destruct r as [a|e]; [|discriminate]. intros H. exists a.
  split; [reflexivity | exact H].
Qed.

Lemma raises_lift {S A} (r : result A) (e : exn) :
  r = Raise e -> raises (lift r : M S A).
Proof. intros -> s. exists e. reflexivity. Qed.

Lemma raises_bind_l {S A B} (m : M S A) (k : A -> M S B) :
  raises m -> raises (m ≫= k).
Proof.
  intros Hm s. unfold mbind, M_bind. destruct (Hm s) as [e He].
  destruct (m s) as [s1 [a|e']]; simpl in *; [discriminate|].
  exists e'. reflexivity.
Qed.

Lemma raises_bind_r {S A B} (m : M S A) (k : A -> M S B) :
  (forall a, raises (k a)) -> raises (m ≫= k).
Proof.
  intros Hk s. unfold mbind, M_bind.
  destruct (m s) as [s1 [a|e]]; [apply Hk|]. exists e. reflexivity.
Qed.

(** ** The identity check *)

Lemma Stop_mismatch_raises (self : Stop.t) (api_data v : value) (i n : Z) :
  Stop.id self = Some i ->
  getitem api_data "stop_id" = Ok v ->
  py_int v = Ok n ->
  n <> i ->
  Stop.set_from_api api_data self = (self, Raise (Stop.mismatch i v)).
Proof.
  intros Hid Hget Hint Hne.
  unfold Stop.set_from_api, mbind, M_bind, get, lift, raise, result_bind.
  rewrite Hid, Hget, Hint.
  apply Z.eqb_neq in Hne. rewrite Hne. reflexivity.
Qed.

Lemma Route_mismatch_raises (self : Route.t) (api_data v : value) (i n : Z) :
  Route.id self = Some i ->
  getitem api_data "route_id" = Ok v ->
  py_int v = Ok n ->
  n <> i ->
  Route.set_from_api api_data self = (self, Raise (Route.mismatch i v)).
Proof.
  intros Hid Hget Hint Hne.
  unfold Route.set_from_api, mbind, M_bind, get, lift, raise, result_bind.
  rewrite Hid, Hget, Hint.
  apply Z.eqb_neq in Hne. rewrite Hne. reflexivity.
Qed.

(** C1.  A [Stop] or [Route] that already has an id, given a payload
    whose id field parses to a different integer, raises the mismatch
    [ValueError], and the record after the failed call is the record
    before it: no field has been assigned. *)
Theorem identity_mismatch_leaves_record_unmodified :
  (forall (self : Stop.t) (api_data v : value) (i n : Z),
      Stop.id self = Some i ->
      getitem api_data "stop_id" = Ok v ->
      py_int v = Ok n ->
      n <> i ->
      Stop.set_from_api api_data self = (self, Raise (Stop.mismatch i v)))
  /\
  (forall (self : Route.t) (api_data v : value) (i n : Z),
      Route.id self = Some i ->
      getitem api_data "route_id" = Ok v ->
      py_int v = Ok n ->
      n <> i ->
      Route.set_from_api api_data self = (self, Raise (Route.mismatch i v))).
Proof.
  split; [exact Stop_mismatch_raises | exact Route_mismatch_raises].
Qed.

Lemma identity_mismatch_witness :
  Stop.set_from_api stop_payload (stored_stop 5)
    = (stored_stop 5, Raise (Stop.mismatch 5 (VStr "1884")))
  /\ Route.set_from_api route_payload (stored_route 44)
    = (stored_route 44, Raise (Route.mismatch 44 (VStr "2777"))).
Proof.
  split.
  - apply (proj1 identity_mismatch_leaves_record_unmodified
             (stored_stop 5) stop_payload (VStr "1884") 5 1884);
      [reflexivity | reflexivity | reflexivity | lia].
  - apply (proj2 identity_mismatch_leaves_record_unmodified
             (stored_route 44) route_payload (VStr "2777") 44 2777);
      [reflexivity | reflexivity | reflexivity | lia].
Defined.

(** ** What [Stop.set_from_api] assigns *)

Lemma Stop_set_from_api_keeps_id (api_data : value) :
  preserves (keeps Stop.id) (Stop.set_from_api api_data).
Proof.
  unfold Stop.set_from_api. preserves_steps.
  all: apply preserves_modify; intros self; reflexivity.
Qed.

(** C2.  On the test's stop payload and a new record the call succeeds
    and stores the code 21884, the name and the point
    (-77.076255, 38.987993), longitude first; the id, however, is still
    unset afterwards, where the specification (and the repository's test) expect
    1884. *)
Theorem Stop_set_from_api_leaves_id_unset (now : Z) :
  Stop.set_from_api stop_payload (Stop.new now)
  = (Stop.mk now now None (Some 21884)
       (VStr "EAST WEST HWY & CONNECTICUT AVE")
       (Some (geos.mkPoint (-77.076255)%float 38.987993%float None)),
     Ok tt).
Proof. reflexivity. Qed.

(** ** The identity check of [Trip] *)

(** C3.  The check of [Trip.set_from_api] reads the payload's
    [route_id], not its [trip_id].  A trip stored under id 425677 is
    refused the payload of trip 425677 (route 2777), and a trip stored
    under id 2777 accepts it. *)
Theorem Trip_identity_check_reads_route_id :
  Trip.set_from_api (trip_payload "2777" (map pair_value two_vertices))
                    (stored_trip 425677)
  = (stored_trip 425677, Raise (Trip.mismatch 425677 (VStr "2777")))
  /\
  Trip.set_from_api (trip_payload "2777" (map pair_value two_vertices))
                    (stored_trip 2777)
  = (Trip.mk 0 0 (Some 2777) (VStr "Twinbrook")
       (Some (geos.mkLineString (map pair_coords two_vertices))),
     Ok tt).
Proof. split; reflexivity. Qed.

(** ** The route of a [Trip] *)

(** C4.  [Trip.set_from_api] has no route parameter (and [Trip] no route
    column): called as the repository's test calls it, with a payload
    and a route, it raises [TypeError] and assigns nothing. *)
Theorem Trip_set_from_api_rejects_route_argument
    (self : Trip.t) (api_data : value) (route : Route.t) :
  Trip_set_from_api_call [AValue api_data; ARoute route] self
  = (self,
     Raise (TypeError (Fmt "set_from_api() takes exactly 2 arguments (%d given)"
                           [VInt 3]))).
Proof. reflexivity. Qed.

Lemma id_agrees_check {S} (id : option Z) (api_data : value) (key : string)
    (mk_exn : Z -> value -> exn) (s : S) :
  id_agrees id (getitem api_data key) ->
  match id with
  | Some i =>
      n ← lift (getitem api_data key ≫= py_int);
      if negb (n =? i) then
        v ← lift (getitem api_data key);
        raise (mk_exn i v)
      else mret tt
  | None => mret tt
  end s = (s, Ok tt).
Proof.
  destruct id as [i|]; [|reflexivity].
  intros (v & Hget & Hint).
  unfold mbind, M_bind, lift, result_bind. rewrite Hget, Hint, Z.eqb_refl.
  reflexivity.
Qed.

Lemma Stop_set_from_api_ok (self : Stop.t) (api_data code_v name_v lon lat : value)
    (code : Z) (name : value) (p : geos.Point) :
  id_agrees (Stop.id self) (getitem api_data "stop_id") ->
  getitem api_data "stop_code" = Ok code_v -> py_int code_v = Ok code ->
  getitem api_data "stop_name" = Ok name_v -> slice_to 300 name_v = Ok name ->
  getitem api_data "stop_lon" = Ok lon ->
  getitem api_data "stop_lat" = Ok lat ->
  geos.Point_new lon lat = Ok p ->
  Stop.set_from_api api_data self
  = (Stop.mk (Stop.created_at self) (Stop.modified_at self) (Stop.id self)
       (Some code) name (Some p),
     Ok tt).
Proof.
  intros Hid Hc Hci Hn Hsl Hlon Hlat Hp.
  unfold Stop.set_from_api.
  unfold mbind at 1, M_bind at 1, get. unfold mbind at 1, M_bind at 1.
  rewrite (id_agrees_check _ _ _ Stop.mismatch self Hid).
  unfold mbind, M_bind, lift, modify, result_bind.
  rewrite Hc, Hci, Hn, Hsl, Hlon, Hlat, Hp. reflexivity.
Qed.

(** ** Truncation of names *)

Lemma substring_short (n : nat) (s : string) :
  (String.length s <= n)%nat -> String.substring 0 n s = s.
Proof.
  revert s. induction n as [|n IH]; intros [|c s] Hlen; simpl in *;
    try reflexivity; try lia.
  f_equal. apply IH. lia.
Qed.

Lemma substring_long (n : nat) (s : string) :
  (n <= String.length s)%nat ->
  String.length (String.substring 0 n s) = n
  /\ exists rest, s = String.append (String.substring 0 n s) rest.
Proof.
  revert s. induction n as [|n IH]; intros s Hlen.
  - destruct s; simpl; (split; [reflexivity | eexists; reflexivity]).
  - destruct s as [|c s]; simpl in *; [lia|].
    destruct (IH s) as (Hl & rest & Hrest); [lia|].
    split; [f_equal; exact Hl|]. exists rest. rewrite Hrest at 1. reflexivity.
Qed.

(** C9.  A stop name longer than 300 characters does not make the call
    fail: the call succeeds and the stored name is the 300-character
    prefix of the given one.  A name of at most 300 characters is stored
    as it is. *)
Theorem Stop_name_truncated_to_300
    (self : Stop.t) (api_data code_v lon lat : value) (code : Z)
    (name : string) (p : geos.Point) :
  id_agrees (Stop.id self) (getitem api_data "stop_id") ->
  getitem api_data "stop_code" = Ok code_v -> py_int code_v = Ok code ->
  getitem api_data "stop_name" = Ok (VStr name) ->
  getitem api_data "stop_lon" = Ok lon ->
  getitem api_data "stop_lat" = Ok lat ->
  geos.Point_new lon lat = Ok p ->
  exists (self' : Stop.t) (stored : string),
    Stop.set_from_api api_data self = (self', Ok tt)
    /\ Stop.stop_name self' = VStr stored
    /\ ((300 < String.length name)%nat ->
        String.length stored = 300%nat
        /\ exists rest, name = String.append stored rest)
    /\ ((String.length name <= 300)%nat -> stored = name).
Proof.
  intros Hid Hc Hci Hn Hlon Hlat Hp.
  eexists _, (String.substring 0 300 name). split; [|split; [|split]].
  - eapply Stop_set_from_api_ok; eauto.
  - reflexivity.
  - intros Hlen. apply substring_long. lia.
  - intros Hlen. apply substring_short. exact Hlen.
Qed.

Lemma Stop_name_truncated_witness :
  exists (self' : Stop.t) (stored : string),
    Stop.set_from_api long_name_payload (Stop.new 0) = (self', Ok tt)
    /\ Stop.stop_name self' = VStr stored
    /\ ((300 < String.length long_name)%nat ->
        String.length stored = 300%nat
        /\ exists rest, long_name = String.append stored rest)
    /\ ((String.length long_name <= 300)%nat -> stored = long_name).
Proof.
  apply (Stop_name_truncated_to_300 (Stop.new 0) long_name_payload
           (VStr "21884") (VFloat (-77.076255)%float) (VFloat 38.987993%float)
           21884 long_name
           (geos.mkPoint (-77.076255)%float 38.987993%float None));
    [exact I | reflexivity ..].
Defined.


(** ** Empty route fields *)

Lemma Route_set_from_api_ok (self : Route.t)
    (api_data short_v long_v short long desc color text_color : value) :
  id_agrees (Route.id self) (getitem api_data "route_id") ->
  getitem api_data "route_short_name" = Ok short_v ->
  slice_to 300 short_v = Ok short ->
  getitem api_data "route_long_name" = Ok long_v ->
  slice_to 300 long_v = Ok long ->
  getitem api_data "route_desc" = Ok desc ->
  getitem api_data "route_color" = Ok color ->
  getitem api_data "route_text_color" = Ok text_color ->
  Route.set_from_api api_data self
  = (Route.mk (Route.created_at self) (Route.modified_at self) (Route.id self)
       short long (py_or desc VNone) (py_or color VNone)
       (py_or text_color VNone),
     Ok tt).
Proof.
  intros Hid Hs Hss Hl Hls Hd Hc Ht.
  unfold Route.set_from_api.
  unfold mbind at 1, M_bind at 1, get. unfold mbind at 1, M_bind at 1.
  rewrite (id_agrees_check _ _ _ Route.mismatch self Hid).
  unfold mbind, M_bind, lift, modify, result_bind.
  rewrite Hs, Hss, Hl, Hls, Hd, Hc, Ht. reflexivity.
Qed.

Lemma py_or_None_falsy (v : value) : truthy v = false -> py_or v VNone = VNone.
Proof. intros Hv. unfold py_or. rewrite Hv. reflexivity. Qed.

Lemma py_or_None_not_empty (v : value) : py_or v VNone <> VStr "".
Proof.
  unfold py_or. destruct (truthy v) eqn:Hv; [|discriminate].
  intros ->. discriminate Hv.
Qed.

(** C8.  Whenever the mapping of a route payload goes through, a falsy
    [route_desc] (null, the empty string, ...) is stored as [None], and
    the stored description is never the empty string; a falsy
    [route_color] or [route_text_color] is stored as [None] too, not as
    the default ["000000"]. *)
Theorem Route_falsy_fields_stored_as_None
    (self : Route.t)
    (api_data short_v long_v short long desc color text_color : value) :
  id_agrees (Route.id self) (getitem api_data "route_id") ->
  getitem api_data "route_short_name" = Ok short_v ->
  slice_to 300 short_v = Ok short ->
  getitem api_data "route_long_name" = Ok long_v ->
  slice_to 300 long_v = Ok long ->
  getitem api_data "route_desc" = Ok desc ->
  getitem api_data "route_color" = Ok color ->
  getitem api_data "route_text_color" = Ok text_color ->
  exists self' : Route.t,
    Route.set_from_api api_data self = (self', Ok tt)
    /\ (truthy desc = false -> Route.route_desc self' = VNone)
    /\ Route.route_desc self' <> VStr ""
    /\ (truthy color = false ->
        Route.route_color self' = VNone
        /\ Route.route_color self' <> VStr "000000")
    /\ (truthy text_color = false ->
        Route.route_text_color self' = VNone
        /\ Route.route_text_color self' <> VStr "000000").
Proof.
  intros Hid Hs Hss Hl Hls Hd Hc Ht.
  eexists. split; [eapply Route_set_from_api_ok; eassumption|]. simpl.
  split; [apply py_or_None_falsy|].
  split; [apply py_or_None_not_empty|].
  split; intros Hf; rewrite (py_or_None_falsy _ Hf); split;
    (reflexivity || discriminate).
Qed.

Lemma Route_falsy_fields_witness :
  exists self' : Route.t,
    Route.set_from_api empty_fields_route_payload (Route.new 0) = (self', Ok tt)
    /\ (truthy (VStr "") = false -> Route.route_desc self' = VNone)
    /\ Route.route_desc self' <> VStr ""
    /\ (truthy (VStr "") = false ->
        Route.route_color self' = VNone
        /\ Route.route_color self' <> VStr "000000")
    /\ (truthy VNone = false ->
        Route.route_text_color self' = VNone
        /\ Route.route_text_color self' <> VStr "000000").
Proof.
  apply (Route_falsy_fields_stored_as_None (Route.new 0)
           empty_fields_route_payload (VStr " 44") (VStr "Twinbrook-Rockville")
           (VStr " 44") (VStr "Twinbrook-Rockville") (VStr "") (VStr "") VNone);
    [exact I | reflexivity ..].
Defined.

(** ** The path of a trip *)



Lemma LineString_new_cons2 (v1 v2 : value) (vs : list value) :
  geos.LineString_new (v1 :: v2 :: vs)
  = (ndim ← py_len v1;
     if (Nat.eqb ndim 2 || Nat.eqb ndim 3)%bool then
       mapM (geos.check_vertex ndim) (v2 :: vs);;
       cs ← mapM (geos.set_vertex ndim) (v1 :: v2 :: vs);
       Ok (geos.mkLineString cs)
     else Raise (TypeError (Msg "Dimension mismatch."))).
Proof. reflexivity. Qed.



Lemma Trip_set_from_api_ok (self : Trip.t)
    (api_data headsign_v headsign geometry coordinates : value)
    (vertices : list value) (line : geos.LineString) :
  id_agrees (Trip.id self) (getitem api_data "route_id") ->
  getitem api_data "trip_headsign" = Ok headsign_v ->
  slice_to 300 headsign_v = Ok headsign ->
  getitem api_data "geometry" = Ok geometry ->
  getitem geometry "coordinates" = Ok coordinates ->
  py_iter coordinates = Ok vertices ->
  geos.LineString_new vertices = Ok line ->
  Trip.set_from_api api_data self
  = (Trip.mk (Trip.created_at self) (Trip.modified_at self) (Trip.id self)
       headsign (Some line),
     Ok tt).
Proof.
  intros Hid Hh Hhs Hg Hc Hi Hl.
  unfold Trip.set_from_api.
  unfold mbind at 1, M_bind at 1, get. unfold mbind at 1, M_bind at 1.
  rewrite (id_agrees_check _ _ _ Trip.mismatch self Hid).
  unfold mbind, M_bind, lift, modify, result_bind.
  rewrite Hh, Hhs, Hg, Hc, Hi, Hl. reflexivity.
Qed.






(** ** Integers that a double holds exactly

    [time.gmtime] reads its argument as a double.  An integer of
    magnitude at most [2 ^ 53] survives the conversion unchanged. *)

Lemma digits2_pos_lower (m : positive) :
  2 ^ (Z.pos (digits2_pos m) - 1) <= Z.pos m.
Proof.
  induction m as [p IH | p IH | ]; cbn [digits2_pos];
    [| | reflexivity];
    rewrite Pos2Z.inj_succ;
    replace (Z.succ (Z.pos (digits2_pos p)) - 1)
      with (Z.succ (Z.pos (digits2_pos p) - 1)) by lia;
    rewrite Z.pow_succ_r by lia; lia.
Qed.

Lemma digits2_pos_bound (m : positive) :
  Z.pos m < 2 ^ 53 -> Z.pos (digits2_pos m) <= 53.
Proof.
  intros Hm.
  destruct (Z_le_gt_dec (Z.pos (digits2_pos m)) 53) as [|Hgt]; [assumption|].
  pose proof (digits2_pos_lower m) as Hlow.
  assert (2 ^ 53 <= 2 ^ (Z.pos (digits2_pos m) - 1))
    by (apply Z.pow_le_mono_r; lia).
  lia.
Qed.

Lemma iter_xO_value (m k : positive) :
  Z.pos (Pos.iter xO m k) = Z.pos m * 2 ^ Z.pos k.
Proof.
  induction k as [|k IH] using Pos.peano_ind.
  - cbn. lia.
  - rewrite Pos.iter_succ, Pos2Z.inj_xO, IH, Pos2Z.inj_succ, Z.pow_succ_r
      by lia.
    lia.
Qed.

Lemma iter_xO_digits (m k : positive) :
  digits2_pos (Pos.iter xO m k) = (digits2_pos m + k)%positive.
Proof.
  induction k as [|k IH] using Pos.peano_ind.
  - cbn. lia.
  - rewrite Pos.iter_succ. cbn [digits2_pos]. rewrite IH. lia.
Qed.

(** A 53-bit mantissa is not rounded. *)
Lemma binary_round_aux_exact (s : bool) (mz : positive) (ez : Z) :
  digits2_pos mz = 53%positive -> -1074 <= ez <= 971 ->
  binary_round_aux prec emax s (Z.pos mz) ez loc_Exact = S754_finite s mz ez.
Proof.
  intros Hd He. unfold binary_round_aux, shr_fexp. cbn [Zdigits2]. rewrite Hd.
  replace (fexp prec emax (53 + ez) - ez) with 0
    by (unfold fexp, emin, prec, emax; lia).
  cbn [shr shr_record_of_loc loc_of_shr_record shr_m round_nearest_even Zdigits2].
  rewrite Hd.
  replace (fexp prec emax (53 + ez) - ez) with 0
    by (unfold fexp, emin, prec, emax; lia).
  cbn [shr shr_record_of_loc shr_m].
  replace (ez <=? emax - prec) with true; [reflexivity|].
  symmetry. apply Z.leb_le. unfold emax, prec. lia.
Qed.

Lemma binary_round_exact (s : bool) (m : positive) :
  Z.pos m < 2 ^ 53 ->
  exists mz ez,
    binary_round prec emax s m 0 = S754_finite s mz ez
    /\ -52 <= ez <= 0
    /\ Z.pos mz = Z.pos m * 2 ^ (- ez).
Proof.
  intros Hm. pose proof (digits2_pos_bound m Hm) as Hd.
  unfold binary_round, shl_align.
  replace (fexp prec emax (Z.pos (digits2_pos m) + 0) - 0)
    with (Z.pos (digits2_pos m) - 53)
    by (unfold fexp, emin, prec, emax; lia).
  destruct (Z.pos (digits2_pos m) - 53) as [|k|k] eqn:Hk.
  - exists m, 0. split; [|split; [lia|cbn; lia]].
    apply binary_round_aux_exact; lia.
  - lia.
  - exists (Pos.iter xO m k).
    replace (fexp prec emax (Z.pos (digits2_pos m) + 0))
      with (Z.neg k) by (unfold fexp, emin, prec, emax; lia).
    exists (Z.neg k). split; [|split; [lia|]].
    + apply binary_round_aux_exact; [|lia]. rewrite iter_xO_digits. lia.
    + rewrite iter_xO_value. reflexivity.
Qed.

Lemma double_of_int_exact (z : Z) :
  - 2 ^ 53 <= z <= 2 ^ 53 ->
  exists when, double_of_int z = Ok when /\ trunc_sf when = Ok z.
Proof.
  intros Hz.
  destruct (Z.eq_dec z (2 ^ 53)) as [->|];
    [eexists; split; vm_compute; reflexivity|].
  destruct (Z.eq_dec z (- 2 ^ 53)) as [->|];
    [eexists; split; vm_compute; reflexivity|].
  unfold double_of_int, binary_normalize.
  destruct z as [|m|m]; [eexists; split; reflexivity| |].
  - destruct (binary_round_exact false m) as (mz & ez & -> & He & Hv); [lia|].
    eexists; split; [reflexivity|]. cbn. destruct (Z.leb_spec 0 ez).
    + replace ez with 0 in * by lia. f_equal. cbn in Hv. lia.
    + f_equal. rewrite Hv. apply Z.div_mul. apply Z.pow_nonzero; lia.
  - destruct (binary_round_exact true m) as (mz & ez & -> & He & Hv); [lia|].
    eexists; split; [reflexivity|]. cbn. destruct (Z.leb_spec 0 ez).
    + replace ez with 0 in * by lia. f_equal. cbn in Hv. lia.
    + f_equal. rewrite Hv. rewrite Z.div_mul; [lia|]. apply Z.pow_nonzero; lia.
Qed.

(** ** Times of day *)

Lemma time_of_secs_seconds_of_day (secs : Z) :
  - 2 ^ 53 <= secs <= 2 ^ 53 ->
  TripStop.time_of_secs secs = Ok (seconds_of_day_time secs).
Proof.
  intros Hsecs.
  destruct (double_of_int_exact secs Hsecs) as (when & Hwhen & Htrunc).
  unfold TripStop.time_of_secs, time.gmtime.
  rewrite Hwhen. cbn [mbind result_bind]. rewrite Htrunc.
  cbn [mbind result_bind].
  replace ((time.TIME_T_MIN <=? secs) && (secs <=? time.TIME_T_MAX))%bool
    with true
    by (symmetry; apply andb_true_intro;
        unfold time.TIME_T_MIN, time.TIME_T_MAX; split; apply Z.leb_le; lia).
  replace ((time.GMTIME_MIN <=? secs) && (secs <=? time.GMTIME_MAX))%bool
    with true
    by (symmetry; apply andb_true_intro;
        unfold time.GMTIME_MIN, time.GMTIME_MAX; split; apply Z.leb_le; lia).
  cbn [negb mbind result_bind].
  unfold datetime.time_new, seconds_of_day_time.
  cbn [time.tm_hour time.tm_min time.tm_sec].
  pose proof (Z.mod_pos_bound secs 86400 eq_refl) as Hrem.
  set (rem := secs mod 86400) in *.
  assert (0 <= rem / 3600 < 24)
    by (split; [apply Z.div_pos; lia | apply Z.div_lt_upper_bound; lia]).
  pose proof (Z.mod_pos_bound rem 3600 eq_refl) as Hm.
  assert (0 <= rem mod 3600 / 60 < 60)
    by (split; [apply Z.div_pos; lia | apply Z.div_lt_upper_bound; lia]).
  pose proof (Z.mod_pos_bound rem 60 eq_refl) as Hs.
  replace ((0 <=? rem / 3600) && (rem / 3600 <? 24))%bool with true
    by (symmetry; apply andb_true_intro; split;
        [apply Z.leb_le | apply Z.ltb_lt]; lia).
  replace ((0 <=? rem mod 3600 / 60) && (rem mod 3600 / 60 <? 60))%bool
    with true
    by (symmetry; apply andb_true_intro; split;
        [apply Z.leb_le | apply Z.ltb_lt]; lia).
  replace ((0 <=? rem mod 60) && (rem mod 60 <? 60))%bool with true
    by (symmetry; apply andb_true_intro; split;
        [apply Z.leb_le | apply Z.ltb_lt]; lia).
  reflexivity.
Qed.

(** ** What [TripStop.set_from_api] touches *)

#[global] Instance frame_refl (self : TripStop.ref) : Reflexive (frame self).
Proof.
  intros w. split; [reflexivity|]. split; [auto|].
  intros ts Hts. exists ts. auto.
Qed.

#[global] Instance frame_trans (self : TripStop.ref) : Transitive (frame self).
Proof.
  intros w1 w2 w3 (Ht12 & Ho12 & Hs12) (Ht23 & Ho23 & Hs23).
  split; [congruence|]. split; [auto|].
  intros ts Hts.
  destruct (Hs12 ts Hts) as (ts2 & Hts2 & Hc2 & Hm2 & Hi2).
  destruct (Hs23 ts2 Hts2) as (ts3 & Hts3 & Hc3 & Hm3 & Hi3).
  exists ts3. repeat split; congruence.
Qed.

Lemma setattr_frame (self : TripStop.ref) (f : TripStop.t -> TripStop.t) :
  (forall ts, TripStop.created_at (f ts) = TripStop.created_at ts
              /\ TripStop.modified_at (f ts) = TripStop.modified_at ts
              /\ TripStop.id (f ts) = TripStop.id ts) ->
  preserves (frame self) (TripStop.setattr self f).
Proof.
  intros Hf w. unfold TripStop.setattr, modify. cbn [fst].
  split; [reflexivity|]. cbn [TripStop.heap]. split.
  - intros l o Hne Hl. rewrite lookup_alter_ne by auto. exact Hl.
  - intros ts Hts. exists (f ts). rewrite lookup_alter_eq, Hts.
    split; [reflexivity | apply Hf].
Qed.

Lemma fresh_ref_unused (w : TripStop.world) (l : TripStop.ref)
    (o : TripStop.object) :
  TripStop.heap w !! l = Some o -> fresh (dom (TripStop.heap w)) <> l.
Proof.
  intros Hl Heq. apply (is_fresh (dom (TripStop.heap w))).
  rewrite Heq. apply (elem_of_dom_2 _ _ _ Hl).
Qed.

Lemma Stop_objects_get_frame (self : TripStop.ref) (k : Z) :
  preserves (frame self) (TripStop.Stop_objects_get k).
Proof.
  intros w. unfold TripStop.Stop_objects_get, mbind, M_bind, get.
  destruct (List.filter (TripStop.has_id k) (TripStop.stops_table w))
    as [|row [|row' rows]]; try reflexivity.
  pose proof (fresh_ref_unused w) as Hfresh.
  set (r := fresh (dom (TripStop.heap w))) in *.
  unfold modify, mret, M_ret. cbn [fst].
  split; [reflexivity|]. cbn [TripStop.heap]. split.
  - intros l o _ Hl. rewrite lookup_insert_ne by eauto. exact Hl.
  - intros ts Hts. exists ts. rewrite lookup_insert_ne by eauto. auto.
Qed.

Lemma assign_trip_frame (self trip : TripStop.ref) :
  preserves (frame self) (TripStop.assign_trip self trip).
Proof.
  unfold TripStop.assign_trip. preserves_steps.
  all: try (apply setattr_frame; intros ?; auto).
Qed.

Lemma TripStop_set_from_api_frame (self trip : TripStop.ref) (api_data : value) :
  preserves (frame self) (TripStop.set_from_api self api_data trip).
Proof.
  unfold TripStop.set_from_api. preserves_steps.
  all: try apply assign_trip_frame.
  all: try apply Stop_objects_get_frame.
  all: apply setattr_frame; intros ?; auto.
Qed.

(** ** Runs of [TripStop.set_from_api] that return *)

Lemma TripStop_set_from_api_run (w : TripStop.world) (self trip : TripStop.ref)
    (api_data stop_v id_v arrival_v departure_v seq_v : value)
    (ts : TripStop.t) (tr : Trip.t) (row : Stop.t)
    (k arr dep seq : Z) (arrival departure : datetime.time) :
  TripStop.heap w !! self = Some (TripStop.OTripStop ts) ->
  TripStop.heap w !! trip = Some (TripStop.OTrip tr) ->
  getitem api_data "stop" = Ok stop_v ->
  getitem stop_v "stop_id" = Ok id_v ->
  py_int id_v = Ok k ->
  List.filter (TripStop.has_id k) (TripStop.stops_table w) = [row] ->
  getitem api_data "arrival_time" = Ok arrival_v ->
  py_int arrival_v = Ok arr ->
  TripStop.time_of_secs arr = Ok arrival ->
  getitem api_data "departure_time" = Ok departure_v ->
  py_int departure_v = Ok dep ->
  TripStop.time_of_secs dep = Ok departure ->
  getitem api_data "stop_sequence" = Ok seq_v ->
  py_int seq_v = Ok seq ->
  TripStop.set_from_api self api_data trip w
  = (populated w self trip row arrival departure seq, Ok tt).
Proof.
  intros Hself Htrip Hst Hid Hk Hrow Ha Harr Hta Hd Hdep Htd Hq Hseq.
  unfold TripStop.set_from_api, TripStop.assign_trip, TripStop.Stop_objects_get,
    TripStop.setattr, mbind, M_bind, get, lift, modify, mret, M_ret, result_bind.
  rewrite Hself, Htrip, Hst, Hid, Hk. cbn [TripStop.stops_table].
  rewrite Hrow, Ha, Harr, Hta, Hd, Hdep, Htd, Hq, Hseq.
  reflexivity.
Qed.

Lemma assign_trip_Ok_inv (self trip : TripStop.ref) (w w1 : TripStop.world)
    (u : unit) :
  TripStop.assign_trip self trip w = (w1, Ok u) ->
  (exists tr, TripStop.heap w !! trip = Some (TripStop.OTrip tr))
  /\ w1 = trip_assigned w self trip.
Proof.
  unfold TripStop.assign_trip, mbind, M_bind, get, raise.
  destruct (TripStop.heap w !! trip) as [[s|r|tr|ts]|]; try discriminate.
  unfold TripStop.setattr, modify. intros [= <-]. eauto.
Qed.

Lemma Stop_objects_get_Ok_inv (k : Z) (w w1 : TripStop.world) (r : TripStop.ref) :
  TripStop.Stop_objects_get k w = (w1, Ok r) ->
  exists row,
    List.filter (TripStop.has_id k) (TripStop.stops_table w) = [row]
    /\ r = fresh (dom (TripStop.heap w))
    /\ w1 = TripStop.mkWorld (<[r := TripStop.OStop row]> (TripStop.heap w))
                             (TripStop.stops_table w).
Proof.
  unfold TripStop.Stop_objects_get, mbind, M_bind, get, raise.
  destruct (List.filter (TripStop.has_id k) (TripStop.stops_table w))
    as [|row [|row' rows]]; try discriminate.
  unfold modify, mret, M_ret. intros [= <- <-]. eauto.
Qed.

Lemma TripStop_set_from_api_Ok_inv (w w' : TripStop.world)
    (self trip : TripStop.ref) (api_data : value) :
  TripStop.set_from_api self api_data trip w = (w', Ok tt) ->
  exists ts tr row arrival departure seq,
    TripStop.heap w !! self = Some (TripStop.OTripStop ts)
    /\ TripStop.heap w !! trip = Some (TripStop.OTrip tr)
    /\ In row (TripStop.stops_table w)
    /\ w' = populated w self trip row arrival departure seq.
Proof.
  unfold TripStop.set_from_api. intros H.
  apply bind_Ok_inv in H as (w0 & s1 & Hget & H).
  unfold get in Hget. injection Hget as <- <-.
  destruct (TripStop.heap w !! self) as [[s|r0|tr0|ts]|] eqn:Hself;
    try (unfold raise in H; discriminate H).
  apply bind_Ok_inv in H as (u & w1 & Hassign & H).
  apply assign_trip_Ok_inv in Hassign as [[tr Htrip] ->].
  apply bind_Ok_inv in H as (k & w2 & Hk & H).
  apply lift_Ok_inv in Hk as [-> _].
  apply bind_Ok_inv in H as (r & w3 & Hrow & H).
  apply Stop_objects_get_Ok_inv in Hrow as (row & Hrow & -> & ->).
  apply bind_Ok_inv in H as (u1 & w4 & Hset1 & H).
  unfold TripStop.setattr, modify in Hset1. injection Hset1 as <-.
  apply bind_Ok_inv in H as (arrival & w5 & Harr & H).
  apply lift_Ok_inv in Harr as [-> _].
  apply bind_Ok_inv in H as (u2 & w6 & Hset2 & H).
  unfold TripStop.setattr, modify in Hset2. injection Hset2 as <-.
  apply bind_Ok_inv in H as (departure & w7 & Hdep & H).
  apply lift_Ok_inv in Hdep as [-> _].
  apply bind_Ok_inv in H as (u3 & w8 & Hset3 & H).
  unfold TripStop.setattr, modify in Hset3. injection Hset3 as <-.
  apply bind_Ok_inv in H as (seq & w9 & Hseq & H).
  apply lift_Ok_inv in Hseq as [-> _].
  unfold TripStop.setattr, modify in H. injection H as <-.
  exists ts, tr, row, arrival, departure, seq.
  split; [reflexivity|]. split; [exact Htrip|]. split; [|reflexivity].
  cbn [TripStop.stops_table trip_assigned] in Hrow.
  assert (Hin : In row [row]) by (left; reflexivity).
  rewrite <- Hrow in Hin. apply filter_In in Hin. tauto.
Qed.

(** Objects of the store after a returning call. *)
Lemma fresh_ref_not_self (w : TripStop.world) (self trip : TripStop.ref)
    (ts : TripStop.t) :
  TripStop.heap w !! self = Some (TripStop.OTripStop ts) ->
  fresh (dom (TripStop.heap (trip_assigned w self trip))) <> self.
Proof.
  intros Hself. eapply fresh_ref_unused.
  cbn [trip_assigned TripStop.heap]. rewrite lookup_alter_eq, Hself.
  reflexivity.
Qed.

Lemma populated_self (w : TripStop.world) (self trip : TripStop.ref)
    (ts : TripStop.t) (row : Stop.t) (arrival departure : datetime.time)
    (seq : Z) :
  TripStop.heap w !! self = Some (TripStop.OTripStop ts) ->
  TripStop.heap (populated w self trip row arrival departure seq) !! self
  = Some (TripStop.OTripStop
            (TripStop.mk (TripStop.created_at ts) (TripStop.modified_at ts)
               (TripStop.id ts) (Some trip)
               (Some (fresh (dom (TripStop.heap (trip_assigned w self trip)))))
               (Some arrival) (Some departure) (Some seq))).
Proof.
  intros Hself. pose proof (fresh_ref_not_self w self trip ts Hself) as Hne.
  unfold populated. cbn [TripStop.heap].
  rewrite !lookup_alter_eq, lookup_insert_ne by exact Hne.
  cbn [trip_assigned TripStop.heap]. rewrite lookup_alter_eq, Hself.
  reflexivity.
Qed.

Lemma populated_stop (w : TripStop.world) (self trip : TripStop.ref)
    (ts : TripStop.t) (row : Stop.t) (arrival departure : datetime.time)
    (seq : Z) :
  TripStop.heap w !! self = Some (TripStop.OTripStop ts) ->
  let r := fresh (dom (TripStop.heap (trip_assigned w self trip))) in
  TripStop.heap w !! r = None
  /\ TripStop.heap (populated w self trip row arrival departure seq) !! r
     = Some (TripStop.OStop row).
Proof.
  intros Hself r. pose proof (fresh_ref_not_self w self trip ts Hself) as Hne.
  fold r in Hne. split.
  - pose proof (is_fresh (dom (TripStop.heap (trip_assigned w self trip)))) as Hf.
    fold r in Hf. apply not_elem_of_dom_1 in Hf.
    cbn [trip_assigned TripStop.heap] in Hf.
    rewrite lookup_alter_ne in Hf by auto. exact Hf.
  - unfold populated. cbn [TripStop.heap]. fold r.
    rewrite !lookup_alter_ne by auto. apply lookup_insert_eq.
Qed.

Lemma TripStop_set_from_api_times_run (w : TripStop.world)
    (self trip : TripStop.ref)
    (api_data stop_v id_v arrival_v departure_v : value)
    (ts : TripStop.t) (tr : Trip.t) (row : Stop.t)
    (k arr dep : Z) (arrival departure : datetime.time) :
  TripStop.heap w !! self = Some (TripStop.OTripStop ts) ->
  TripStop.heap w !! trip = Some (TripStop.OTrip tr) ->
  getitem api_data "stop" = Ok stop_v ->
  getitem stop_v "stop_id" = Ok id_v ->
  py_int id_v = Ok k ->
  List.filter (TripStop.has_id k) (TripStop.stops_table w) = [row] ->
  getitem api_data "arrival_time" = Ok arrival_v ->
  py_int arrival_v = Ok arr ->
  TripStop.time_of_secs arr = Ok arrival ->
  getitem api_data "departure_time" = Ok departure_v ->
  py_int departure_v = Ok dep ->
  TripStop.time_of_secs dep = Ok departure ->
  TripStop.set_from_api self api_data trip w
  = match getitem api_data "stop_sequence" ≫= py_int with
    | Ok seq => (populated w self trip row arrival departure seq, Ok tt)
    | Raise e => (times_stored w self trip row arrival departure, Raise e)
    end.
Proof.
  intros Hself Htrip Hst Hid Hk Hrow Ha Harr Hta Hd Hdep Htd.
  unfold TripStop.set_from_api, TripStop.assign_trip, TripStop.Stop_objects_get,
    TripStop.setattr, mbind, M_bind, get, lift, modify, mret, M_ret, result_bind.
  rewrite Hself, Htrip, Hst, Hid, Hk. cbn [TripStop.stops_table].
  rewrite Hrow, Ha, Harr, Hta, Hd, Hdep, Htd.
  destruct (getitem api_data "stop_sequence") as [seq_v|e]; [|reflexivity].
  destruct (py_int seq_v) as [seq|e]; reflexivity.
Qed.

Lemma times_stored_self (w : TripStop.world) (self trip : TripStop.ref)
    (ts : TripStop.t) (row : Stop.t) (arrival departure : datetime.time) :
  TripStop.heap w !! self = Some (TripStop.OTripStop ts) ->
  TripStop.heap (times_stored w self trip row arrival departure) !! self
  = Some (TripStop.OTripStop
            (TripStop.mk (TripStop.created_at ts) (TripStop.modified_at ts)
               (TripStop.id ts) (Some trip)
               (Some (fresh (dom (TripStop.heap (trip_assigned w self trip)))))
               (Some arrival) (Some departure) (TripStop.stop_sequence ts))).
Proof.
  intros Hself. pose proof (fresh_ref_not_self w self trip ts Hself) as Hne.
  unfold times_stored. cbn [TripStop.heap].
  rewrite !lookup_alter_eq, lookup_insert_ne by exact Hne.
  cbn [trip_assigned TripStop.heap]. rewrite lookup_alter_eq, Hself.
  reflexivity.
Qed.

(** C5, as the code has it.  With the [TripStop], the [Trip] and the
    stop in order, and arrival and departure values that parse to
    integers of magnitude at most [2 ^ 53], the call stores for each the
    time of day got by reducing the integer modulo 86400 and splitting
    the remainder into hour, minute and second.  Both times are stored
    whatever comes of [stop_sequence], which is read last: the call
    returns when it can be read as an integer, and raises that error,
    with the times in place, when it cannot. *)
Theorem TripStop_times_are_seconds_of_day
    (w : TripStop.world) (self trip : TripStop.ref)
    (api_data stop_v id_v arrival_v departure_v : value)
    (ts : TripStop.t) (tr : Trip.t) (row : Stop.t) (k arr dep : Z) :
  TripStop.heap w !! self = Some (TripStop.OTripStop ts) ->
  TripStop.heap w !! trip = Some (TripStop.OTrip tr) ->
  getitem api_data "stop" = Ok stop_v ->
  getitem stop_v "stop_id" = Ok id_v ->
  py_int id_v = Ok k ->
  List.filter (TripStop.has_id k) (TripStop.stops_table w) = [row] ->
  getitem api_data "arrival_time" = Ok arrival_v ->
  py_int arrival_v = Ok arr ->
  - 2 ^ 53 <= arr <= 2 ^ 53 ->
  getitem api_data "departure_time" = Ok departure_v ->
  py_int departure_v = Ok dep ->
  - 2 ^ 53 <= dep <= 2 ^ 53 ->
  (exists ts',
      TripStop.heap (fst (TripStop.set_from_api self api_data trip w)) !! self
      = Some (TripStop.OTripStop ts')
      /\ TripStop.arrival_time ts' = Some (seconds_of_day_time arr)
      /\ TripStop.departure_time ts' = Some (seconds_of_day_time dep))
  /\ (forall seq,
      getitem api_data "stop_sequence" ≫= py_int = Ok seq ->
      snd (TripStop.set_from_api self api_data trip w) = Ok tt)
  /\ (forall e,
      getitem api_data "stop_sequence" ≫= py_int = Raise e ->
      snd (TripStop.set_from_api self api_data trip w) = Raise e).
Proof.
  intros Hself Htrip Hst Hid Hk Hrow Ha Harr Hra Hd Hdep Hrd.
  rewrite (TripStop_set_from_api_times_run w self trip api_data stop_v id_v
             arrival_v departure_v ts tr row k arr dep
             (seconds_of_day_time arr) (seconds_of_day_time dep))
    by auto using time_of_secs_seconds_of_day.
  split; [|split].
  - destruct (getitem api_data "stop_sequence" ≫= py_int) as [seq|e];
      cbn [fst]; eexists.
    + split; [apply populated_self; exact Hself|]. split; reflexivity.
    + split; [apply times_stored_self; exact Hself|]. split; reflexivity.
  - intros seq ->. reflexivity.
  - intros e ->. reflexivity.
Qed.

Lemma TripStop_times_witness :
  ((exists ts',
       TripStop.heap
         (fst (TripStop.set_from_api 1%positive (trip_stop_payload 67504 67707)
                 2%positive sample_world)) !! 1%positive
       = Some (TripStop.OTripStop ts')
       /\ TripStop.arrival_time ts' = Some (datetime.mkTime 18 45 4)
       /\ TripStop.departure_time ts' = Some (datetime.mkTime 18 48 27))
   /\ snd (TripStop.set_from_api 1%positive (trip_stop_payload 67504 67707)
             2%positive sample_world) = Ok tt)
  /\ ((exists ts',
         TripStop.heap
           (fst (TripStop.set_from_api 1%positive payload_without_sequence
                   2%positive sample_world)) !! 1%positive
         = Some (TripStop.OTripStop ts')
         /\ TripStop.arrival_time ts' = Some (datetime.mkTime 18 45 4)
         /\ TripStop.departure_time ts' = Some (datetime.mkTime 18 48 27))
      /\ snd (TripStop.set_from_api 1%positive payload_without_sequence
                2%positive sample_world) = Raise (KeyError "stop_sequence")).
Proof.
  split.
  - pose proof (TripStop_times_are_seconds_of_day sample_world
                  1%positive 2%positive (trip_stop_payload 67504 67707)
                  (VDict [("stop_name", VStr "MONROE ST & MONROE PL");
                          ("stop_code", VStr "24150");
                          ("stop_id", VStr "4150");
                          ("uri", VStr "/stops/4150")])
                  (VStr "4150") (VInt 67504) (VInt 67707)
                  (TripStop.new 0) (stored_trip 425677) (stored_stop 4150)
                  4150 67504 67707) as H.
    destruct H as (Htimes & Hreturns & _); try reflexivity; try lia.
    split; [exact Htimes | exact (Hreturns 2 eq_refl)].
  - pose proof (TripStop_times_are_seconds_of_day sample_world
                  1%positive 2%positive payload_without_sequence
                  (VDict [("stop_id", VStr "4150")])
                  (VStr "4150") (VInt 67504) (VInt 67707)
                  (TripStop.new 0) (stored_trip 425677) (stored_stop 4150)
                  4150 67504 67707) as H.
    destruct H as (Htimes & _ & Hraises); try reflexivity; try lia.
    split; [exact Htimes | exact (Hraises (KeyError "stop_sequence") eq_refl)].
Defined.

(** C5, as the specification states it, fails for large integers: an arrival time
    of [2 ^ 63] does not wrap around, it makes the call raise, and no
    arrival time is stored. *)
Lemma TripStop_huge_arrival_time_raises :
  snd (TripStop.set_from_api 1%positive
         (trip_stop_payload (2 ^ 63) 67707) 2%positive sample_world)
  = Raise (ValueError (Msg "timestamp out of range for platform time_t"))
  /\ exists ts',
      TripStop.heap
        (fst (TripStop.set_from_api 1%positive
                (trip_stop_payload (2 ^ 63) 67707) 2%positive sample_world))
        !! 1%positive = Some (TripStop.OTripStop ts')
      /\ TripStop.arrival_time ts' = None
      /\ TripStop.arrival_time ts' <> Some (seconds_of_day_time (2 ^ 63)).
Proof.
  split; [vm_compute; reflexivity|].
  eexists. split; [vm_compute; reflexivity|].
  split; [reflexivity | discriminate].
Qed.

(** Just above [2 ^ 53] the conversion to a double already rounds: the
    time stored for [2 ^ 53 + 1] is that of [2 ^ 53]. *)
Lemma time_of_secs_rounds_above_2_53 :
  TripStop.time_of_secs (2 ^ 53 + 1) = Ok (seconds_of_day_time (2 ^ 53))
  /\ seconds_of_day_time (2 ^ 53 + 1) <> seconds_of_day_time (2 ^ 53).
Proof. split; [vm_compute; reflexivity | vm_compute; discriminate]. Qed.

(** C10.  Whatever the outcome of [TripStop.set_from_api], the stops
    table and every object that was in the store, other than the
    [TripStop] itself, are as before, and the [TripStop] keeps its
    timestamps and id.  When the call returns, its five attributes
    [trip], [stop], [arrival_time], [departure_time] and [stop_sequence]
    have been assigned; [trip] refers to the supplied [Trip], which is
    unchanged, and [stop] to a new object holding a row of the stops
    table as it was read. *)
Theorem TripStop_set_from_api_mutates_only_self
    (w w' : TripStop.world) (self trip : TripStop.ref) (api_data : value)
    (outcome : result unit) :
  TripStop.set_from_api self api_data trip w = (w', outcome) ->
  frame self w w'
  /\ (outcome = Ok tt ->
      exists ts tr row r arrival departure seq,
        TripStop.heap w !! self = Some (TripStop.OTripStop ts)
        /\ TripStop.heap w' !! self
           = Some (TripStop.OTripStop
                     (TripStop.mk (TripStop.created_at ts)
                        (TripStop.modified_at ts) (TripStop.id ts)
                        (Some trip) (Some r) (Some arrival) (Some departure)
                        (Some seq)))
        /\ TripStop.heap w !! trip = Some (TripStop.OTrip tr)
        /\ TripStop.heap w' !! trip = Some (TripStop.OTrip tr)
        /\ In row (TripStop.stops_table w)
        /\ TripStop.heap w !! r = None
        /\ TripStop.heap w' !! r = Some (TripStop.OStop row)).
Proof.
  intros Hrun.
  pose proof (TripStop_set_from_api_frame self trip api_data w) as Hframe.
  rewrite Hrun in Hframe. cbn [fst] in Hframe.
  split; [exact Hframe|]. intros ->.
  apply TripStop_set_from_api_Ok_inv in Hrun
    as (ts & tr & row & arrival & departure & seq & Hself & Htrip & Hin & ->).
  destruct (populated_stop w self trip ts row arrival departure seq Hself)
    as [Hnew Hstop].
  exists ts, tr, row, (fresh (dom (TripStop.heap (trip_assigned w self trip)))),
    arrival, departure, seq.
  repeat split; auto using populated_self.
  destruct Hframe as (_ & Hothers & _). apply Hothers; [|exact Htrip].
  intros ->. rewrite Hself in Htrip. discriminate Htrip.
Qed.

Lemma TripStop_set_from_api_mutates_only_self_witness :
  frame 1%positive sample_world
        (populated sample_world 1%positive 2%positive (stored_stop 4150)
                   (datetime.mkTime 18 45 4) (datetime.mkTime 18 48 27) 2)
  /\ (Ok tt = Ok tt ->
      exists ts tr row r arrival departure seq,
        TripStop.heap sample_world !! 1%positive = Some (TripStop.OTripStop ts)
        /\ TripStop.heap
             (populated sample_world 1%positive 2%positive (stored_stop 4150)
                        (datetime.mkTime 18 45 4) (datetime.mkTime 18 48 27) 2)
             !! 1%positive
           = Some (TripStop.OTripStop
                     (TripStop.mk (TripStop.created_at ts)
                        (TripStop.modified_at ts) (TripStop.id ts)
                        (Some 2%positive) (Some r) (Some arrival)
                        (Some departure) (Some seq)))
        /\ TripStop.heap sample_world !! 2%positive = Some (TripStop.OTrip tr)
        /\ TripStop.heap
             (populated sample_world 1%positive 2%positive (stored_stop 4150)
                        (datetime.mkTime 18 45 4) (datetime.mkTime 18 48 27) 2)
             !! 2%positive = Some (TripStop.OTrip tr)
        /\ In row (TripStop.stops_table sample_world)
        /\ TripStop.heap sample_world !! r = None
        /\ TripStop.heap
             (populated sample_world 1%positive 2%positive (stored_stop 4150)
                        (datetime.mkTime 18 45 4) (datetime.mkTime 18 48 27) 2)
             !! r = Some (TripStop.OStop row)).
Proof.
  apply (TripStop_set_from_api_mutates_only_self sample_world _
           1%positive 2%positive (trip_stop_payload 67504 67707) (Ok tt)).
  vm_compute. reflexivity.
Defined.


(** * Further properties of the mappers *)

(** ** The identity check, in general *)

Lemma id_check_Ok_inv {S} (id : option Z) (api_data : value) (key : string)
    (mk_exn : Z -> value -> exn) (s s' : S) (u : unit) :
  match id with
  | Some i =>
      n ← lift (getitem api_data key ≫= py_int);
      if negb (n =? i) then
        v ← lift (getitem api_data key);
        raise (mk_exn i v)
      else mret tt
  | None => mret tt
  end s = (s', Ok u) ->
  s' = s /\ id_agrees id (getitem api_data key).
Proof.
  destruct id as [i|]; [|intros [= <-]; split; [reflexivity | exact I]].
  intros H. apply bind_Ok_inv in H as (n & s1 & Hn & H).
  apply lift_Ok_inv in Hn as [-> Hn].
  apply result_bind_Ok_inv in Hn as (v & Hv & Hn).
  destruct (n =? i) eqn:En; cbn [negb] in H.
  - injection H as <-. apply Z.eqb_eq in En as ->.
    split; [reflexivity|]. exists v. split; assumption.
  - apply bind_Ok_inv in H as (v' & s2 & _ & H). discriminate H.
Qed.

Lemma id_check_raises {S} (id : option Z) (api_data : value) (key : string)
    (mk_exn : Z -> value -> exn) (s : S) (i : Z) (e : exn) :
  id = Some i ->
  getitem api_data key ≫= py_int = Raise e ->
  match id with
  | Some i =>
      n ← lift (getitem api_data key ≫= py_int);
      if negb (n =? i) then
        v ← lift (getitem api_data key);
        raise (mk_exn i v)
      else mret tt
  | None => mret tt
  end s = (s, Raise e).
Proof.
  intros -> He. unfold mbind at 1, M_bind, lift. rewrite He. reflexivity.
Qed.

(** ** [Stop.set_from_api] *)

Lemma Stop_set_from_api_Ok_inv (self self' : Stop.t) (api_data : value) :
  Stop.set_from_api api_data self = (self', Ok tt) ->
  exists code_v code name_v name lon lat p,
    id_agrees (Stop.id self) (getitem api_data "stop_id")
    /\ getitem api_data "stop_code" = Ok code_v /\ py_int code_v = Ok code
    /\ getitem api_data "stop_name" = Ok name_v /\ slice_to 300 name_v = Ok name
    /\ getitem api_data "stop_lon" = Ok lon
    /\ getitem api_data "stop_lat" = Ok lat
    /\ geos.Point_new lon lat = Ok p
    /\ self' = Stop.mk (Stop.created_at self) (Stop.modified_at self)
                 (Stop.id self) (Some code) name (Some p).
Proof.
  unfold Stop.set_from_api. intros H.
  apply bind_Ok_inv in H as (s0 & s1 & Hget & H).
  unfold get in Hget. injection Hget as <- <-.
  apply bind_Ok_inv in H as (u & s2 & Hcheck & H).
  apply id_check_Ok_inv in Hcheck as [-> Hid].
  apply bind_Ok_inv in H as (code & s3 & Hcode & H).
  apply lift_Ok_inv in Hcode as [-> Hcode].
  apply result_bind_Ok_inv in Hcode as (code_v & Hcv & Hcode).
  apply bind_Ok_inv in H as (u1 & s4 & Hm1 & H).
  unfold modify in Hm1. injection Hm1 as <-.
  apply bind_Ok_inv in H as (name & s5 & Hname & H).
  apply lift_Ok_inv in Hname as [-> Hname].
  apply result_bind_Ok_inv in Hname as (name_v & Hnv & Hname).
  apply bind_Ok_inv in H as (u2 & s6 & Hm2 & H).
  unfold modify in Hm2. injection Hm2 as <-.
  apply bind_Ok_inv in H as (p & s7 & Hp & H).
  apply lift_Ok_inv in Hp as [-> Hp].
  apply result_bind_Ok_inv in Hp as (lon & Hlon & Hp).
  apply result_bind_Ok_inv in Hp as (lat & Hlat & Hp).
  unfold modify in H. injection H as <-.
  exists code_v, code, name_v, name, lon, lat, p.
  repeat split; assumption.
Qed.

(** X1.  Whenever the call returns on a payload whose [stop_lon] and
    [stop_lat] are numbers, the stored geometry is the two-dimensional
    point whose x is the longitude and whose y is the latitude, each
    converted to a double; floats are stored as they are. *)
Theorem Stop_point_is_longitude_latitude
    (self self' : Stop.t) (api_data lon lat : value) :
  getitem api_data "stop_lon" = Ok lon ->
  getitem api_data "stop_lat" = Ok lat ->
  is_number lon = true ->
  is_number lat = true ->
  Stop.set_from_api api_data self = (self', Ok tt) ->
  exists x y,
    to_double lon = Ok x /\ to_double lat = Ok y
    /\ Stop.geom self' = Some (geos.mkPoint x y None)
    /\ (forall f, lon = VFloat f -> x = f)
    /\ (forall f, lat = VFloat f -> y = f).
Proof.
  intros Hlon Hlat Hnx Hny Hrun.
  apply Stop_set_from_api_Ok_inv in Hrun
    as (cv & c & nv & n & lon' & lat' & p & _ & _ & _ & _ & _
        & Hlon' & Hlat' & Hp & ->).
  rewrite Hlon in Hlon'. injection Hlon' as <-.
  rewrite Hlat in Hlat'. injection Hlat' as <-.
  assert (Hp' : (cx ← to_double lon; cy ← to_double lat;
                 mret (geos.mkPoint cx cy None)) = Ok p).
  { rewrite <- Hp. unfold geos.Point_new. rewrite Hnx, Hny.
    destruct lon; try discriminate Hnx; reflexivity. }
  apply result_bind_Ok_inv in Hp' as (x & Hx & Hp').
  apply result_bind_Ok_inv in Hp' as (y & Hy & Hp').
  injection Hp' as <-. exists x, y.
  repeat split; try assumption.
  - intros f ->. injection Hx as ->. reflexivity.
  - intros f ->. injection Hy as ->. reflexivity.
Qed.

Lemma Stop_point_witness :
  exists x y,
    to_double (VInt (-77)) = Ok x /\ to_double (VInt 39) = Ok y
    /\ Stop.geom (fst (Stop.set_from_api integer_point_payload (Stop.new 0)))
       = Some (geos.mkPoint x y None)
    /\ (forall f, VInt (-77) = VFloat f -> x = f)
    /\ (forall f, VInt 39 = VFloat f -> y = f).
Proof.
  apply (Stop_point_is_longitude_latitude (Stop.new 0) _ integer_point_payload
           (VInt (-77)) (VInt 39)); reflexivity.
Defined.

(** ** What no call assigns *)

Lemma Stop_keeps_identity (api_data : value) :
  preserves (keeps (fun s => (Stop.created_at s, Stop.modified_at s, Stop.id s)))
            (Stop.set_from_api api_data).
Proof.
  unfold Stop.set_from_api. preserves_steps.
  all: apply preserves_modify; intros self; reflexivity.
Qed.

Lemma Route_keeps_identity (api_data : value) :
  preserves (keeps (fun s => (Route.created_at s, Route.modified_at s, Route.id s)))
            (Route.set_from_api api_data).
Proof.
  unfold Route.set_from_api. preserves_steps.
  all: apply preserves_modify; intros self; reflexivity.
Qed.

Lemma Trip_keeps_identity (api_data : value) :
  preserves (keeps (fun s => (Trip.created_at s, Trip.modified_at s, Trip.id s)))
            (Trip.set_from_api api_data).
Proof.
  unfold Trip.set_from_api. preserves_steps.
  all: apply preserves_modify; intros self; reflexivity.
Qed.

(** X2.  No call of [set_from_api] on a [Stop], a [Route] or a [Trip]
    changes the record's id or its two timestamps, whatever the payload
    and whether the call returns or raises.  In particular a record
    without id never gets one from the payload. *)
Theorem set_from_api_never_assigns_id (api_data : value) :
  (forall self : Stop.t,
      let self' := fst (Stop.set_from_api api_data self) in
      Stop.id self' = Stop.id self
      /\ Stop.created_at self' = Stop.created_at self
      /\ Stop.modified_at self' = Stop.modified_at self)
  /\ (forall self : Route.t,
      let self' := fst (Route.set_from_api api_data self) in
      Route.id self' = Route.id self
      /\ Route.created_at self' = Route.created_at self
      /\ Route.modified_at self' = Route.modified_at self)
  /\ (forall self : Trip.t,
      let self' := fst (Trip.set_from_api api_data self) in
      Trip.id self' = Trip.id self
      /\ Trip.created_at self' = Trip.created_at self
      /\ Trip.modified_at self' = Trip.modified_at self).
Proof.
  split; [|split]; intros self self'.
  - pose proof (Stop_keeps_identity api_data self) as H.
    unfold keeps in H. fold self' in H. injection H as Hc Hm Hi. auto.
  - pose proof (Route_keeps_identity api_data self) as H.
    unfold keeps in H. fold self' in H. injection H as Hc Hm Hi. auto.
  - pose proof (Trip_keeps_identity api_data self) as H.
    unfold keeps in H. fold self' in H. injection H as Hc Hm Hi. auto.
Qed.

(** ** Failing calls on a [Stop] *)

(** X3.  A failing call is not rolled back.  When the identity check
    passes: a [stop_code] that is missing or not a number leaves the
    record as it was; a [stop_name] that cannot be sliced leaves the new
    code assigned; coordinates that do not make a point leave the new
    code and name assigned and the old geometry in place. *)
Theorem Stop_failure_keeps_earlier_assignments
    (self : Stop.t) (api_data : value) (e : exn) :
  id_agrees (Stop.id self) (getitem api_data "stop_id") ->
  (getitem api_data "stop_code" ≫= py_int = Raise e ->
   Stop.set_from_api api_data self = (self, Raise e))
  /\ (forall code,
      getitem api_data "stop_code" ≫= py_int = Ok code ->
      getitem api_data "stop_name" ≫= slice_to 300 = Raise e ->
      Stop.set_from_api api_data self
      = (Stop.set_stop_code (Some code) self, Raise e))
  /\ (forall code name,
      getitem api_data "stop_code" ≫= py_int = Ok code ->
      getitem api_data "stop_name" ≫= slice_to 300 = Ok name ->
      (lon ← getitem api_data "stop_lon";
       lat ← getitem api_data "stop_lat";
       geos.Point_new lon lat) = Raise e ->
      Stop.set_from_api api_data self
      = (Stop.mk (Stop.created_at self) (Stop.modified_at self) (Stop.id self)
           (Some code) name (Stop.geom self),
         Raise e)).
Proof.
  intros Hid.
  assert (Hstart : forall k : unit -> M Stop.t unit,
             (self0 ← get;
              match Stop.id self0 with
              | Some i =>
                  n ← lift (getitem api_data "stop_id" ≫= py_int);
                  if negb (n =? i) then
                    v ← lift (getitem api_data "stop_id");
                    raise (Stop.mismatch i v)
                  else mret tt
              | None => mret tt
              end ≫= k) self = k tt self).
  { intros k. unfold mbind at 1, M_bind at 1, get.
    unfold mbind at 1, M_bind at 1.
    rewrite (id_agrees_check _ _ _ Stop.mismatch self Hid). reflexivity. }
  unfold Stop.set_from_api. rewrite Hstart.
  split; [|split].
  - intros Hc. unfold mbind at 1, M_bind, lift. rewrite Hc. reflexivity.
  - intros code Hc Hn. unfold mbind at 1, M_bind at 1, lift. rewrite Hc.
    unfold mbind at 1, M_bind at 1, modify.
    unfold mbind at 1, M_bind at 1. rewrite Hn. reflexivity.
  - intros code name Hc Hn Hp. unfold mbind at 1, M_bind at 1, lift. rewrite Hc.
    unfold mbind at 1, M_bind at 1, modify.
    unfold mbind at 1, M_bind at 1. rewrite Hn.
    unfold mbind at 1, M_bind at 1.
    unfold mbind at 1, M_bind at 1. rewrite Hp. reflexivity.
Qed.

Lemma Stop_failure_witness :
  Stop.set_from_api bad_code_payload (stored_stop 1884)
  = (stored_stop 1884,
     Raise (ValueError (Fmt "invalid literal for int() with base 10: %r"
                            [VStr "n/a"])))
  /\ Stop.set_from_api bad_point_payload (stored_stop 1884)
     = (Stop.mk 0 0 (Some 1884) (Some 21884)
          (VStr "EAST WEST HWY & CONNECTICUT AVE") None,
        Raise (TypeError (Msg "Invalid parameters given for Point initialization."))).
Proof.
  split.
  - apply (proj1 (Stop_failure_keeps_earlier_assignments (stored_stop 1884)
                    bad_code_payload _
                    (ex_intro _ (VStr "1884") (conj eq_refl eq_refl)))).
    reflexivity.
  - apply (proj2 (proj2 (Stop_failure_keeps_earlier_assignments
                           (stored_stop 1884) bad_point_payload _
                           (ex_intro _ (VStr "1884") (conj eq_refl eq_refl))))
             21884 (VStr "EAST WEST HWY & CONNECTICUT AVE"));
      reflexivity.
Defined.

(** ** Returning calls on a [Route] and on a [Trip] *)

Lemma Route_set_from_api_Ok_inv (self self' : Route.t) (api_data : value) :
  Route.set_from_api api_data self = (self', Ok tt) ->
  exists short_v short long_v long desc color text_color,
    id_agrees (Route.id self) (getitem api_data "route_id")
    /\ getitem api_data "route_short_name" = Ok short_v
    /\ slice_to 300 short_v = Ok short
    /\ getitem api_data "route_long_name" = Ok long_v
    /\ slice_to 300 long_v = Ok long
    /\ getitem api_data "route_desc" = Ok desc
    /\ getitem api_data "route_color" = Ok color
    /\ getitem api_data "route_text_color" = Ok text_color
    /\ self' = Route.mk (Route.created_at self) (Route.modified_at self)
                 (Route.id self) short long (py_or desc VNone)
                 (py_or color VNone) (py_or text_color VNone).
Proof.
  unfold Route.set_from_api. intros H.
  apply bind_Ok_inv in H as (s0 & s1 & Hget & H).
  unfold get in Hget. injection Hget as <- <-.
  apply bind_Ok_inv in H as (u & s2 & Hcheck & H).
  apply id_check_Ok_inv in Hcheck as [-> Hid].
  apply bind_Ok_inv in H as (short & s3 & Hshort & H).
  apply lift_Ok_inv in Hshort as [-> Hshort].
  apply result_bind_Ok_inv in Hshort as (short_v & Hsv & Hshort).
  apply bind_Ok_inv in H as (u1 & s4 & Hm1 & H).
  unfold modify in Hm1. injection Hm1 as <-.
  apply bind_Ok_inv in H as (long & s5 & Hlong & H).
  apply lift_Ok_inv in Hlong as [-> Hlong].
  apply result_bind_Ok_inv in Hlong as (long_v & Hlv & Hlong).
  apply bind_Ok_inv in H as (u2 & s6 & Hm2 & H).
  unfold modify in Hm2. injection Hm2 as <-.
  apply bind_Ok_inv in H as (desc & s7 & Hdesc & H).
  apply lift_Ok_inv in Hdesc as [-> Hdesc].
  apply bind_Ok_inv in H as (u3 & s8 & Hm3 & H).
  unfold modify in Hm3. injection Hm3 as <-.
  apply bind_Ok_inv in H as (color & s9 & Hcolor & H).
  apply lift_Ok_inv in Hcolor as [-> Hcolor].
  apply bind_Ok_inv in H as (u4 & s10 & Hm4 & H).
  unfold modify in Hm4. injection Hm4 as <-.
  apply bind_Ok_inv in H as (text_color & s11 & Htext & H).
  apply lift_Ok_inv in Htext as [-> Htext].
  unfold modify in H. injection H as <-.
  exists short_v, short, long_v, long, desc, color, text_color.
  repeat split; assumption.
Qed.

Lemma Trip_set_from_api_Ok_inv (self self' : Trip.t) (api_data : value) :
  Trip.set_from_api api_data self = (self', Ok tt) ->
  exists headsign_v headsign geometry coordinates vertices line,
    id_agrees (Trip.id self) (getitem api_data "route_id")
    /\ getitem api_data "trip_headsign" = Ok headsign_v
    /\ slice_to 300 headsign_v = Ok headsign
    /\ getitem api_data "geometry" = Ok geometry
    /\ getitem geometry "coordinates" = Ok coordinates
    /\ py_iter coordinates = Ok vertices
    /\ geos.LineString_new vertices = Ok line
    /\ self' = Trip.mk (Trip.created_at self) (Trip.modified_at self)
                 (Trip.id self) headsign (Some line).
Proof.
  unfold Trip.set_from_api. intros H.
  apply bind_Ok_inv in H as (s0 & s1 & Hget & H).
  unfold get in Hget. injection Hget as <- <-.
  apply bind_Ok_inv in H as (u & s2 & Hcheck & H).
  apply id_check_Ok_inv in Hcheck as [-> Hid].
  apply bind_Ok_inv in H as (headsign & s3 & Hh & H).
  apply lift_Ok_inv in Hh as [-> Hh].
  apply result_bind_Ok_inv in Hh as (headsign_v & Hhv & Hh).
  apply bind_Ok_inv in H as (u1 & s4 & Hm1 & H).
  unfold modify in Hm1. injection Hm1 as <-.
  apply bind_Ok_inv in H as (line & s5 & Hline & H).
  apply lift_Ok_inv in Hline as [-> Hline].
  apply result_bind_Ok_inv in Hline as (geometry & Hg & Hline).
  apply result_bind_Ok_inv in Hline as (coordinates & Hc & Hline).
  apply result_bind_Ok_inv in Hline as (vertices & Hv & Hline).
  unfold modify in H. injection H as <-.
  exists headsign_v, headsign, geometry, coordinates, vertices, line.
  repeat split; assumption.
Qed.

(** ** Populating twice *)

(** X4.  The last payload wins.  If populating a record from a payload
    returns, then populating it from that payload after any other
    returning call gives the very same record: nothing of the earlier
    payload is left.  Populating twice from one payload is the same as
    populating once. *)
Theorem set_from_api_last_payload_wins :
  (forall (self s1 s2 : Stop.t) (a b : value),
      Stop.set_from_api a self = (s1, Ok tt) ->
      Stop.set_from_api b self = (s2, Ok tt) ->
      Stop.set_from_api b s1 = (s2, Ok tt)
      /\ Stop.set_from_api a s1 = (s1, Ok tt))
  /\ (forall (self s1 s2 : Route.t) (a b : value),
      Route.set_from_api a self = (s1, Ok tt) ->
      Route.set_from_api b self = (s2, Ok tt) ->
      Route.set_from_api b s1 = (s2, Ok tt)
      /\ Route.set_from_api a s1 = (s1, Ok tt))
  /\ (forall (self s1 s2 : Trip.t) (a b : value),
      Trip.set_from_api a self = (s1, Ok tt) ->
      Trip.set_from_api b self = (s2, Ok tt) ->
      Trip.set_from_api b s1 = (s2, Ok tt)
      /\ Trip.set_from_api a s1 = (s1, Ok tt)).
Proof.
  split; [|split]; intros self s1 s2 a b Ha Hb.
  - apply Stop_set_from_api_Ok_inv in Ha
      as (cv & c & nv & n & lon & lat & p
          & Hid & Hc & Hci & Hn & Hsl & Hlon & Hlat & Hp & ->).
    apply Stop_set_from_api_Ok_inv in Hb
      as (cv' & c' & nv' & n' & lon' & lat' & p'
          & Hid' & Hc' & Hci' & Hn' & Hsl' & Hlon' & Hlat' & Hp' & ->).
    split.
    + erewrite Stop_set_from_api_ok; eauto.
    + erewrite Stop_set_from_api_ok; eauto.
  - apply Route_set_from_api_Ok_inv in Ha
      as (sv & sh & lv & lo & d & c & t
          & Hid & Hs & Hss & Hl & Hls & Hd & Hc & Ht & ->).
    apply Route_set_from_api_Ok_inv in Hb
      as (sv' & sh' & lv' & lo' & d' & c' & t'
          & Hid' & Hs' & Hss' & Hl' & Hls' & Hd' & Hc' & Ht' & ->).
    split.
    + erewrite Route_set_from_api_ok; eauto.
    + erewrite Route_set_from_api_ok; eauto.
  - apply Trip_set_from_api_Ok_inv in Ha
      as (hv & h & g & c & vs & line
          & Hid & Hh & Hhs & Hg & Hc & Hv & Hline & ->).
    apply Trip_set_from_api_Ok_inv in Hb
      as (hv' & h' & g' & c' & vs' & line'
          & Hid' & Hh' & Hhs' & Hg' & Hc' & Hv' & Hline' & ->).
    split.
    + erewrite Trip_set_from_api_ok; eauto.
    + erewrite Trip_set_from_api_ok; eauto.
Qed.

Lemma set_from_api_last_payload_wins_witness :
  (Stop.set_from_api other_stop_payload
     (fst (Stop.set_from_api stop_payload (Stop.new 0)))
   = (fst (Stop.set_from_api other_stop_payload (Stop.new 0)), Ok tt)
   /\ Stop.set_from_api stop_payload
        (fst (Stop.set_from_api stop_payload (Stop.new 0)))
      = (fst (Stop.set_from_api stop_payload (Stop.new 0)), Ok tt))
  /\ (Route.set_from_api full_route_payload
        (fst (Route.set_from_api route_payload (Route.new 0)))
      = (fst (Route.set_from_api full_route_payload (Route.new 0)), Ok tt)
      /\ Route.set_from_api route_payload
           (fst (Route.set_from_api route_payload (Route.new 0)))
         = (fst (Route.set_from_api route_payload (Route.new 0)), Ok tt))
  /\ (Trip.set_from_api (trip_payload "2777" (map pair_value two_vertices))
        (fst (Trip.set_from_api test_trip_payload (Trip.new 0)))
      = (fst (Trip.set_from_api
                (trip_payload "2777" (map pair_value two_vertices))
                (Trip.new 0)), Ok tt)
      /\ Trip.set_from_api test_trip_payload
           (fst (Trip.set_from_api test_trip_payload (Trip.new 0)))
         = (fst (Trip.set_from_api test_trip_payload (Trip.new 0)), Ok tt)).
Proof.
  split; [|split].
  - apply (proj1 set_from_api_last_payload_wins (Stop.new 0) _ _
             stop_payload other_stop_payload); reflexivity.
  - apply (proj1 (proj2 set_from_api_last_payload_wins) (Route.new 0) _ _
             route_payload full_route_payload); reflexivity.
  - apply (proj2 (proj2 set_from_api_last_payload_wins) (Trip.new 0) _ _
             test_trip_payload
             (trip_payload "2777" (map pair_value two_vertices)));
      reflexivity.
Defined.

(** ** Text fields of a [Route] and of a [Trip] *)

Lemma substring_is_truncation (n : nat) (s : string) :
  is_truncation n s (String.substring 0 n s).
Proof.
  split; intros Hlen.
  - apply substring_short. exact Hlen.
  - apply substring_long. lia.
Qed.

(** X5.  Like the name of a stop, the short and the long name of a
    route and the headsign of a trip are cut to 300 characters: a
    returning call has stored each of them as it was given when it has
    at most 300 characters, and as its 300-character prefix otherwise. *)
Theorem names_and_headsign_truncated_to_300 :
  (forall (self self' : Route.t) (api_data : value) (short long : string),
      getitem api_data "route_short_name" = Ok (VStr short) ->
      getitem api_data "route_long_name" = Ok (VStr long) ->
      Route.set_from_api api_data self = (self', Ok tt) ->
      exists stored_short stored_long,
        Route.route_short_name self' = VStr stored_short
        /\ is_truncation 300 short stored_short
        /\ Route.route_long_name self' = VStr stored_long
        /\ is_truncation 300 long stored_long)
  /\ (forall (self self' : Trip.t) (api_data : value) (headsign : string),
      getitem api_data "trip_headsign" = Ok (VStr headsign) ->
      Trip.set_from_api api_data self = (self', Ok tt) ->
      exists stored,
        Trip.trip_headsign self' = VStr stored
        /\ is_truncation 300 headsign stored).
Proof.
  split.
  - intros self self' api_data short long Hs Hl Hrun.
    apply Route_set_from_api_Ok_inv in Hrun
      as (sv & sh & lv & lo & d & c & t
          & _ & Hs' & Hss & Hl' & Hls & _ & _ & _ & ->).
    rewrite Hs in Hs'. injection Hs' as <-.
    rewrite Hl in Hl'. injection Hl' as <-.
    injection Hss as <-. injection Hls as <-.
    eexists _, _.
    split; [reflexivity|]. split; [apply substring_is_truncation|].
    split; [reflexivity | apply substring_is_truncation].
  - intros self self' api_data headsign Hh Hrun.
    apply Trip_set_from_api_Ok_inv in Hrun
      as (hv & h & g & c & vs & line & _ & Hh' & Hhs & _ & _ & _ & _ & ->).
    rewrite Hh in Hh'. injection Hh' as <-. injection Hhs as <-.
    eexists. split; [reflexivity | apply substring_is_truncation].
Qed.

Lemma names_and_headsign_witness :
  (exists stored_short stored_long,
      Route.route_short_name
        (fst (Route.set_from_api full_route_payload (Route.new 0)))
      = VStr stored_short
      /\ is_truncation 300 long_name stored_short
      /\ Route.route_long_name
           (fst (Route.set_from_api full_route_payload (Route.new 0)))
         = VStr stored_long
      /\ is_truncation 300 long_name stored_long)
  /\ (exists stored,
        Trip.trip_headsign
          (fst (Trip.set_from_api test_trip_payload (Trip.new 0)))
        = VStr stored
        /\ is_truncation 300 "Twinbrook" stored).
Proof.
  split.
  - apply (proj1 names_and_headsign_truncated_to_300 (Route.new 0) _
             full_route_payload long_name long_name); reflexivity.
  - apply (proj2 names_and_headsign_truncated_to_300 (Trip.new 0) _
             test_trip_payload "Twinbrook"); reflexivity.
Defined.

(** X6.  A description or colour that is not falsy is stored exactly as
    the payload gives it: the mapping substitutes no default and does
    not cut the colours to six characters. *)
Theorem Route_truthy_fields_stored_as_given
    (self self' : Route.t) (api_data desc color text_color : value) :
  getitem api_data "route_desc" = Ok desc ->
  getitem api_data "route_color" = Ok color ->
  getitem api_data "route_text_color" = Ok text_color ->
  Route.set_from_api api_data self = (self', Ok tt) ->
  (truthy desc = true -> Route.route_desc self' = desc)
  /\ (truthy color = true -> Route.route_color self' = color)
  /\ (truthy text_color = true -> Route.route_text_color self' = text_color).
Proof.
  intros Hd Hc Ht Hrun.
  apply Route_set_from_api_Ok_inv in Hrun
    as (sv & sh & lv & lo & d & c & t
        & _ & _ & _ & _ & _ & Hd' & Hc' & Ht' & ->).
  rewrite Hd in Hd'. injection Hd' as <-.
  rewrite Hc in Hc'. injection Hc' as <-.
  rewrite Ht in Ht'. injection Ht' as <-.
  cbn [Route.route_desc Route.route_color Route.route_text_color].
  unfold py_or.
  repeat split; intros Htrue; rewrite Htrue; reflexivity.
Qed.

Lemma Route_truthy_fields_witness :
  (truthy (VStr "Twinbrook to Rockville") = true ->
   Route.route_desc (fst (Route.set_from_api full_route_payload (Route.new 0)))
   = VStr "Twinbrook to Rockville")
  /\ (truthy (VStr "0000FF") = true ->
      Route.route_color (fst (Route.set_from_api full_route_payload (Route.new 0)))
      = VStr "0000FF")
  /\ (truthy (VStr "FFFFFF") = true ->
      Route.route_text_color
        (fst (Route.set_from_api full_route_payload (Route.new 0)))
      = VStr "FFFFFF").
Proof.
  apply (Route_truthy_fields_stored_as_given (Route.new 0) _ full_route_payload);
    reflexivity.
Defined.

(** ** Failing calls on a [Route] *)

(** X7.  A payload that lacks [route_desc], [route_color] or
    [route_text_color] (or whose lookup fails otherwise) makes the call
    raise at that field, with the fields before it already assigned and
    the ones from it on left as they were. *)
Theorem Route_failure_keeps_earlier_assignments
    (self : Route.t) (api_data short long : value) (e : exn) :
  id_agrees (Route.id self) (getitem api_data "route_id") ->
  getitem api_data "route_short_name" ≫= slice_to 300 = Ok short ->
  getitem api_data "route_long_name" ≫= slice_to 300 = Ok long ->
  (getitem api_data "route_desc" = Raise e ->
   Route.set_from_api api_data self
   = (Route.mk (Route.created_at self) (Route.modified_at self) (Route.id self)
        short long (Route.route_desc self) (Route.route_color self)
        (Route.route_text_color self),
      Raise e))
  /\ (forall desc,
      getitem api_data "route_desc" = Ok desc ->
      getitem api_data "route_color" = Raise e ->
      Route.set_from_api api_data self
      = (Route.mk (Route.created_at self) (Route.modified_at self)
           (Route.id self) short long (py_or desc VNone)
           (Route.route_color self) (Route.route_text_color self),
         Raise e))
  /\ (forall desc color,
      getitem api_data "route_desc" = Ok desc ->
      getitem api_data "route_color" = Ok color ->
      getitem api_data "route_text_color" = Raise e ->
      Route.set_from_api api_data self
      = (Route.mk (Route.created_at self) (Route.modified_at self)
           (Route.id self) short long (py_or desc VNone)
           (py_or color VNone) (Route.route_text_color self),
         Raise e)).
Proof.
  intros Hid Hs Hl.
  assert (Hstart : forall k : unit -> M Route.t unit,
             (self0 ← get;
              match Route.id self0 with
              | Some i =>
                  n ← lift (getitem api_data "route_id" ≫= py_int);
                  if negb (n =? i) then
                    v ← lift (getitem api_data "route_id");
                    raise (Route.mismatch i v)
                  else mret tt
              | None => mret tt
              end ≫= k) self = k tt self).
  { intros k. unfold mbind at 1, M_bind at 1, get.
    unfold mbind at 1, M_bind at 1.
    rewrite (id_agrees_check _ _ _ Route.mismatch self Hid). reflexivity. }
  unfold Route.set_from_api. rewrite Hstart.
  unfold mbind at 1, M_bind at 1, lift. rewrite Hs.
  unfold mbind at 1, M_bind at 1, modify.
  unfold mbind at 1, M_bind at 1. rewrite Hl.
  unfold mbind at 1, M_bind at 1.
  split; [|split].
  - intros Hd. unfold mbind at 1, M_bind at 1. rewrite Hd. reflexivity.
  - intros desc Hd Hc. unfold mbind at 1, M_bind at 1. rewrite Hd.
    unfold mbind at 1, M_bind at 1.
    unfold mbind at 1, M_bind at 1. rewrite Hc. reflexivity.
  - intros desc color Hd Hc Ht. unfold mbind at 1, M_bind at 1. rewrite Hd.
    unfold mbind at 1, M_bind at 1.
    unfold mbind at 1, M_bind at 1. rewrite Hc.
    unfold mbind at 1, M_bind at 1.
    unfold mbind at 1, M_bind at 1. rewrite Ht. reflexivity.
Qed.

Lemma Route_failure_witness :
  Route.set_from_api route_payload_without_desc (stored_route 2777)
  = (Route.mk 0 0 (Some 2777) (VStr " 44") (VStr "Twinbrook-Rockville")
       VNone (VStr "000000") (VStr "000000"),
     Raise (KeyError "route_desc")).
Proof.
  apply (proj1 (Route_failure_keeps_earlier_assignments (stored_route 2777)
                  route_payload_without_desc (VStr " 44")
                  (VStr "Twinbrook-Rockville") (KeyError "route_desc")
                  (ex_intro _ (VStr "2777") (conj eq_refl eq_refl))
                  eq_refl eq_refl)).
  reflexivity.
Defined.

(** ** The identity check of a stored record *)

(** X8.  A record that has an id cannot be populated from a payload
    whose id field is missing or does not parse as an integer: the call
    raises the lookup or parse error and the record stays as it was.
    The id field is [stop_id] for a stop and [route_id] for a route and,
    as the code has it, for a trip. *)
Theorem stored_record_needs_id_field :
  (forall (self : Stop.t) (api_data : value) (i : Z) (e : exn),
      Stop.id self = Some i ->
      getitem api_data "stop_id" ≫= py_int = Raise e ->
      Stop.set_from_api api_data self = (self, Raise e))
  /\ (forall (self : Route.t) (api_data : value) (i : Z) (e : exn),
      Route.id self = Some i ->
      getitem api_data "route_id" ≫= py_int = Raise e ->
      Route.set_from_api api_data self = (self, Raise e))
  /\ (forall (self : Trip.t) (api_data : value) (i : Z) (e : exn),
      Trip.id self = Some i ->
      getitem api_data "route_id" ≫= py_int = Raise e ->
      Trip.set_from_api api_data self = (self, Raise e)).
Proof.
  split; [|split]; intros self api_data i e Hid He.
  - unfold Stop.set_from_api.
    unfold mbind at 1, M_bind at 1, get. unfold mbind at 1, M_bind at 1.
    rewrite (id_check_raises _ _ _ Stop.mismatch self i e Hid He).
    reflexivity.
  - unfold Route.set_from_api.
    unfold mbind at 1, M_bind at 1, get. unfold mbind at 1, M_bind at 1.
    rewrite (id_check_raises _ _ _ Route.mismatch self i e Hid He).
    reflexivity.
  - unfold Trip.set_from_api.
    unfold mbind at 1, M_bind at 1, get. unfold mbind at 1, M_bind at 1.
    rewrite (id_check_raises _ _ _ Trip.mismatch self i e Hid He).
    reflexivity.
Qed.

Lemma stored_record_needs_id_field_witness :
  Stop.set_from_api (VDict [("stop_id", VStr "n/a")]) (stored_stop 1884)
  = (stored_stop 1884,
     Raise (ValueError (Fmt "invalid literal for int() with base 10: %r"
                            [VStr "n/a"])))
  /\ Route.set_from_api (VDict []) (stored_route 2777)
     = (stored_route 2777, Raise (KeyError "route_id"))
  /\ Trip.set_from_api test_trip_payload (stored_trip 425677)
     = (stored_trip 425677, Raise (KeyError "route_id")).
Proof.
  split; [|split].
  - apply (proj1 stored_record_needs_id_field (stored_stop 1884) _ 1884);
      reflexivity.
  - apply (proj1 (proj2 stored_record_needs_id_field) (stored_route 2777) _ 2777);
      reflexivity.
  - apply (proj2 (proj2 stored_record_needs_id_field) (stored_trip 425677) _
             425677); reflexivity.
Defined.

(** ** [Trip.set_from_api] *)

(** X9.  A trip that has an id and is given a payload whose [route_id]
    parses to a different integer raises the mismatch error naming that
    [route_id], and is left as it was; the payload's [trip_id] plays no
    part. *)
Theorem Trip_route_id_mismatch_leaves_record_unmodified
    (self : Trip.t) (api_data v : value) (i n : Z) :
  Trip.id self = Some i ->
  getitem api_data "route_id" = Ok v ->
  py_int v = Ok n ->
  n <> i ->
  Trip.set_from_api api_data self = (self, Raise (Trip.mismatch i v)).
Proof.
  intros Hid Hget Hint Hne.
  unfold Trip.set_from_api, mbind, M_bind, get, lift, raise, result_bind.
  rewrite Hid, Hget, Hint.
  apply Z.eqb_neq in Hne. rewrite Hne. reflexivity.
Qed.

Lemma Trip_route_id_mismatch_witness :
  Trip.set_from_api (trip_payload "2777" (map pair_value two_vertices))
                    (stored_trip 1)
  = (stored_trip 1, Raise (Trip.mismatch 1 (VStr "2777"))).
Proof.
  apply (Trip_route_id_mismatch_leaves_record_unmodified (stored_trip 1)
           (trip_payload "2777" (map pair_value two_vertices))
           (VStr "2777") 1 2777);
    [reflexivity | reflexivity | reflexivity | lia].
Defined.

(** X10.  When the headsign is in order but the geometry cannot be
    built (the payload has no [geometry], no [coordinates], or the line
    string is refused), the call raises with the new headsign already
    assigned and the old geometry in place. *)
Theorem Trip_geometry_failure_keeps_headsign
    (self : Trip.t) (api_data headsign : value) (e : exn) :
  id_agrees (Trip.id self) (getitem api_data "route_id") ->
  getitem api_data "trip_headsign" ≫= slice_to 300 = Ok headsign ->
  (geometry ← getitem api_data "geometry";
   coordinates ← getitem geometry "coordinates";
   vertices ← py_iter coordinates;
   geos.LineString_new vertices) = Raise e ->
  Trip.set_from_api api_data self
  = (Trip.mk (Trip.created_at self) (Trip.modified_at self) (Trip.id self)
       headsign (Trip.geom self),
     Raise e).
Proof.
  intros Hid Hh Hg.
  unfold Trip.set_from_api.
  unfold mbind at 1, M_bind at 1, get. unfold mbind at 1, M_bind at 1.
  rewrite (id_agrees_check _ _ _ Trip.mismatch self Hid).
  unfold mbind at 1, M_bind at 1, lift. rewrite Hh.
  unfold mbind at 1, M_bind at 1, modify.
  unfold mbind at 1, M_bind at 1. rewrite Hg. reflexivity.
Qed.

Lemma Trip_geometry_failure_witness :
  Trip.set_from_api (trip_payload "2777" []) (stored_trip 2777)
  = (Trip.mk 0 0 (Some 2777) (VStr "Twinbrook") None,
     Raise (TypeError (Msg "Cannot initialize on empty sequence."))).
Proof.
  apply (Trip_geometry_failure_keeps_headsign (stored_trip 2777)
           (trip_payload "2777" []) (VStr "Twinbrook")
           (TypeError (Msg "Cannot initialize on empty sequence."))
           (ex_intro _ (VStr "2777") (conj eq_refl eq_refl)));
    reflexivity.
Defined.

Lemma mapM_raises {A B} (f : A -> result B) (l : list A) (x : A) (e : exn) :
  In x l -> f x = Raise e -> exists e', mapM f l = Raise e'.
Proof.
  intros Hin Hx. induction l as [|a l IH]; [destruct Hin|]. simpl.
  destruct (f a) as [b|e0] eqn:Ha; [|exists e0; reflexivity].
  destruct Hin as [->|Hin]; [congruence|].
  destruct (IH Hin) as [e' He']. rewrite He'. exists e'. reflexivity.
Qed.

Lemma LineString_new_mixed_dimensions
    (first : value) (rest : list value) (items : list value) (n : nat) :
  py_len first = Ok n ->
  In (VList items) rest ->
  List.length items <> n ->
  exists e, geos.LineString_new (first :: rest) = Raise e.
Proof.
  intros Hlen Hin Hne.
  destruct rest as [|v2 vs]; [destruct Hin|].
  rewrite LineString_new_cons2, Hlen. cbn [mbind result_bind].
  destruct (Nat.eqb n 2 || Nat.eqb n 3)%bool; [|eexists; reflexivity].
  destruct (mapM_raises (geos.check_vertex n) (v2 :: vs) (VList items)
              (TypeError (Msg "Dimension mismatch.")) Hin) as [e He].
  { unfold geos.check_vertex. apply Nat.eqb_neq in Hne. rewrite Hne.
    reflexivity. }
  rewrite He. exists e. reflexivity.
Qed.

(** X11.  All vertices of a path must have as many coordinates as the
    first: a payload in which a later vertex has a different number of
    coordinates makes the call raise, whatever the record. *)
Theorem Trip_mixed_dimensions_raise
    (self : Trip.t) (api_data geometry first : value)
    (rest items : list value) (n : nat) :
  getitem api_data "geometry" = Ok geometry ->
  getitem geometry "coordinates" = Ok (VList (first :: rest)) ->
  py_len first = Ok n ->
  In (VList items) rest ->
  List.length items <> n ->
  exists e, snd (Trip.set_from_api api_data self) = Raise e.
Proof.
  intros Hg Hc Hlen Hin Hne.
  destruct (LineString_new_mixed_dimensions first rest items n Hlen Hin Hne)
    as [e He].
  revert self. unfold Trip.set_from_api.
  apply raises_bind_r; intros ?. apply raises_bind_r; intros ?.
  apply raises_bind_r; intros ?. apply raises_bind_r; intros ?.
  apply raises_bind_l. apply (raises_lift _ e).
  rewrite Hg. cbn [mbind result_bind]. rewrite Hc.
  cbn [mbind result_bind py_iter]. exact He.
Qed.

Lemma Trip_mixed_dimensions_witness :
  exists e,
    snd (Trip.set_from_api (trip_payload "2777" mixed_vertices) (Trip.new 0))
    = Raise e.
Proof.
  apply (Trip_mixed_dimensions_raise (Trip.new 0)
           (trip_payload "2777" mixed_vertices)
           (VDict [("type", VStr "LineString");
                   ("coordinates", VList mixed_vertices)])
           (VList [VFloat 1%float; VFloat 2%float])
           [VList [VFloat 3%float; VFloat 4%float; VFloat 5%float]]
           [VFloat 3%float; VFloat 4%float; VFloat 5%float] 2%nat);
    [reflexivity | reflexivity | reflexivity | left; reflexivity
    | simpl; lia].
Defined.

(** ** Failing calls on a [TripStop] *)

(** X12.  The trip is assigned before the stop is resolved.  With a
    proper [TripStop] and [Trip], a payload from which no stop id can be
    read, a stop id that is not in the stops table ([DoesNotExist]) and
    one that is there more than once ([MultipleObjectsReturned]) all
    make the call raise with the trip already assigned and nothing else
    changed. *)
Theorem TripStop_unresolved_stop_keeps_trip
    (w : TripStop.world) (self trip : TripStop.ref) (api_data : value)
    (ts : TripStop.t) (tr : Trip.t) :
  TripStop.heap w !! self = Some (TripStop.OTripStop ts) ->
  TripStop.heap w !! trip = Some (TripStop.OTrip tr) ->
  (forall e,
      (stop ← getitem api_data "stop"; getitem stop "stop_id" ≫= py_int)
      = Raise e ->
      TripStop.set_from_api self api_data trip w
      = (trip_assigned w self trip, Raise e))
  /\ (forall k,
      (stop ← getitem api_data "stop"; getitem stop "stop_id" ≫= py_int)
      = Ok k ->
      List.filter (TripStop.has_id k) (TripStop.stops_table w) = [] ->
      TripStop.set_from_api self api_data trip w
      = (trip_assigned w self trip, Raise DoesNotExist))
  /\ (forall k row1 row2 rows,
      (stop ← getitem api_data "stop"; getitem stop "stop_id" ≫= py_int)
      = Ok k ->
      List.filter (TripStop.has_id k) (TripStop.stops_table w)
      = row1 :: row2 :: rows ->
      TripStop.set_from_api self api_data trip w
      = (trip_assigned w self trip, Raise MultipleObjectsReturned)).
Proof.
  intros Hself Htrip.
  split; [|split].
  - intros e He.
    unfold TripStop.set_from_api, TripStop.assign_trip, TripStop.setattr.
    unfold mbind at 1, M_bind at 1, get. rewrite Hself.
    unfold mbind at 1, M_bind at 1. unfold mbind at 1, M_bind at 1.
    rewrite Htrip. unfold modify at 1.
    unfold mbind at 1, M_bind at 1, lift. rewrite He. reflexivity.
  - intros k Hk Hrows.
    unfold TripStop.set_from_api, TripStop.assign_trip, TripStop.setattr,
      TripStop.Stop_objects_get.
    unfold mbind at 1, M_bind at 1, get. rewrite Hself.
    unfold mbind at 1, M_bind at 1. unfold mbind at 1, M_bind at 1.
    rewrite Htrip. unfold modify at 1.
    unfold mbind at 1, M_bind at 1, lift. rewrite Hk.
    unfold mbind at 1, M_bind at 1. unfold mbind at 1, M_bind at 1.
    cbn [TripStop.stops_table]. rewrite Hrows. reflexivity.
  - intros k row1 row2 rows Hk Hrows.
    unfold TripStop.set_from_api, TripStop.assign_trip, TripStop.setattr,
      TripStop.Stop_objects_get.
    unfold mbind at 1, M_bind at 1, get. rewrite Hself.
    unfold mbind at 1, M_bind at 1. unfold mbind at 1, M_bind at 1.
    rewrite Htrip. unfold modify at 1.
    unfold mbind at 1, M_bind at 1, lift. rewrite Hk.
    unfold mbind at 1, M_bind at 1. unfold mbind at 1, M_bind at 1.
    cbn [TripStop.stops_table]. rewrite Hrows. reflexivity.
Qed.

Lemma TripStop_unresolved_stop_witness :
  TripStop.set_from_api 1%positive test_trip_stop_payload 2%positive sample_world
  = (trip_assigned sample_world 1%positive 2%positive, Raise (KeyError "stop"))
  /\ TripStop.set_from_api 1%positive (trip_stop_payload 67504 67707) 2%positive
       (world_with_stops [stored_stop 1884])
     = (trip_assigned (world_with_stops [stored_stop 1884]) 1%positive 2%positive,
        Raise DoesNotExist)
  /\ TripStop.set_from_api 1%positive (trip_stop_payload 67504 67707) 2%positive
       (world_with_stops [stored_stop 4150; stored_stop 4150])
     = (trip_assigned (world_with_stops [stored_stop 4150; stored_stop 4150])
          1%positive 2%positive,
        Raise MultipleObjectsReturned).
Proof.
  split; [|split].
  - apply (proj1 (TripStop_unresolved_stop_keeps_trip sample_world
                    1%positive 2%positive test_trip_stop_payload
                    (TripStop.new 0) (stored_trip 425677) eq_refl eq_refl)).
    reflexivity.
  - apply (proj1 (proj2 (TripStop_unresolved_stop_keeps_trip
                           (world_with_stops [stored_stop 1884])
                           1%positive 2%positive (trip_stop_payload 67504 67707)
                           (TripStop.new 0) (stored_trip 425677)
                           eq_refl eq_refl)) 4150);
      reflexivity.
  - apply (proj2 (proj2 (TripStop_unresolved_stop_keeps_trip
                           (world_with_stops [stored_stop 4150; stored_stop 4150])
                           1%positive 2%positive (trip_stop_payload 67504 67707)
                           (TripStop.new 0) (stored_trip 425677)
                           eq_refl eq_refl))
             4150 (stored_stop 4150) (stored_stop 4150) []);
      reflexivity.
Defined.

(** X13.  The [trip] argument must refer to a [Trip]: given a reference
    to anything else, the call raises [ValueError] before anything is
    assigned, and the store is as it was. *)
Theorem TripStop_rejects_non_trip
    (w : TripStop.world) (self trip : TripStop.ref) (api_data : value)
    (ts : TripStop.t) :
  TripStop.heap w !! self = Some (TripStop.OTripStop ts) ->
  (forall tr, TripStop.heap w !! trip <> Some (TripStop.OTrip tr)) ->
  TripStop.set_from_api self api_data trip w
  = (w, Raise (ValueError
                 (Msg "Cannot assign: TripStop.trip must be a Trip instance."))).
Proof.
  intros Hself Hnot.
  unfold TripStop.set_from_api, TripStop.assign_trip.
  unfold mbind at 1, M_bind at 1, get. rewrite Hself.
  unfold mbind at 1, M_bind at 1. unfold mbind at 1, M_bind at 1.
  destruct (TripStop.heap w !! trip) as [[s|r|tr|ts']|] eqn:Htrip;
    try reflexivity.
  destruct (Hnot tr). reflexivity.
Qed.

Lemma TripStop_rejects_non_trip_witness :
  TripStop.set_from_api 1%positive (trip_stop_payload 67504 67707) 1%positive
                        sample_world
  = (sample_world,
     Raise (ValueError
              (Msg "Cannot assign: TripStop.trip must be a Trip instance."))).
Proof.
  apply (TripStop_rejects_non_trip sample_world 1%positive 1%positive
           (trip_stop_payload 67504 67707) (TripStop.new 0));
    [reflexivity | intros tr; vm_compute; discriminate].
Defined.

(** ** Returning calls on a [TripStop] *)

Lemma time_new_Ok_inv (h m s : Z) (t : datetime.time) :
  datetime.time_new h m s = Ok t ->
  t = datetime.mkTime h m s /\ valid_time t.
Proof.
  unfold datetime.time_new, valid_time.
  destruct ((0 <=? h) && (h <? 24))%bool eqn:Hh; [|discriminate].
  destruct ((0 <=? m) && (m <? 60))%bool eqn:Hm; [|discriminate].
  destruct ((0 <=? s) && (s <? 60))%bool eqn:Hs; [|discriminate].
  cbn [negb]. intros [= <-]. cbn.
  apply andb_prop in Hh as [Hh1 Hh2]. apply andb_prop in Hm as [Hm1 Hm2].
  apply andb_prop in Hs as [Hs1 Hs2].
  apply Z.leb_le in Hh1, Hm1, Hs1. apply Z.ltb_lt in Hh2, Hm2, Hs2.
  repeat split; assumption.
Qed.

Lemma time_of_secs_valid (secs : Z) (t : datetime.time) :
  TripStop.time_of_secs secs = Ok t -> valid_time t.
Proof.
  unfold TripStop.time_of_secs. intros H.
  apply result_bind_Ok_inv in H as (tm & _ & H).
  apply time_new_Ok_inv in H as [_ H]. exact H.
Qed.

Lemma TripStop_set_from_api_Ok_inv_full (w w' : TripStop.world)
    (self trip : TripStop.ref) (api_data : value) :
  TripStop.set_from_api self api_data trip w = (w', Ok tt) ->
  exists ts tr k row arr dep arrival departure seq,
    TripStop.heap w !! self = Some (TripStop.OTripStop ts)
    /\ TripStop.heap w !! trip = Some (TripStop.OTrip tr)
    /\ (stop ← getitem api_data "stop"; getitem stop "stop_id" ≫= py_int)
       = Ok k
    /\ List.filter (TripStop.has_id k) (TripStop.stops_table w) = [row]
    /\ getitem api_data "arrival_time" ≫= py_int = Ok arr
    /\ TripStop.time_of_secs arr = Ok arrival
    /\ getitem api_data "departure_time" ≫= py_int = Ok dep
    /\ TripStop.time_of_secs dep = Ok departure
    /\ getitem api_data "stop_sequence" ≫= py_int = Ok seq
    /\ w' = populated w self trip row arrival departure seq.
Proof.
  unfold TripStop.set_from_api. intros H.
  apply bind_Ok_inv in H as (w0 & s1 & Hget & H).
  unfold get in Hget. injection Hget as <- <-.
  destruct (TripStop.heap w !! self) as [[s|r0|tr0|ts]|] eqn:Hself;
    try (unfold raise in H; discriminate H).
  apply bind_Ok_inv in H as (u & w1 & Hassign & H).
  apply assign_trip_Ok_inv in Hassign as [[tr Htrip] ->].
  apply bind_Ok_inv in H as (k & w2 & Hk & H).
  apply lift_Ok_inv in Hk as [-> Hk].
  apply bind_Ok_inv in H as (r & w3 & Hrow & H).
  apply Stop_objects_get_Ok_inv in Hrow as (row & Hrow & -> & ->).
  apply bind_Ok_inv in H as (u1 & w4 & Hset1 & H).
  unfold TripStop.setattr, modify in Hset1. injection Hset1 as <-.
  apply bind_Ok_inv in H as (arrival & w5 & Harr & H).
  apply lift_Ok_inv in Harr as [-> Harr].
  apply result_bind_Ok_inv in Harr as (arr & Harr & Harrival).
  apply bind_Ok_inv in H as (u2 & w6 & Hset2 & H).
  unfold TripStop.setattr, modify in Hset2. injection Hset2 as <-.
  apply bind_Ok_inv in H as (departure & w7 & Hdep & H).
  apply lift_Ok_inv in Hdep as [-> Hdep].
  apply result_bind_Ok_inv in Hdep as (dep & Hdep & Hdeparture).
  apply bind_Ok_inv in H as (u3 & w8 & Hset3 & H).
  unfold TripStop.setattr, modify in Hset3. injection Hset3 as <-.
  apply bind_Ok_inv in H as (seq & w9 & Hseq & H).
  apply lift_Ok_inv in Hseq as [-> Hseq].
  unfold TripStop.setattr, modify in H. injection H as <-.
  exists ts, tr, k, row, arr, dep, arrival, departure, seq.
  repeat split; try assumption; reflexivity.
Qed.

Lemma has_id_filter (k : Z) (rows : list Stop.t) (row : Stop.t) :
  List.filter (TripStop.has_id k) rows = [row] ->
  In row rows /\ Stop.id row = Some k.
Proof.
  intros Hrow. assert (Hin : In row [row]) by (left; reflexivity).
  rewrite <- Hrow in Hin. apply filter_In in Hin as [Hin Hid].
  split; [exact Hin|]. unfold TripStop.has_id in Hid.
  destruct (Stop.id row) as [i|]; [|discriminate].
  apply Z.eqb_eq in Hid as ->. reflexivity.
Qed.

(** X14.  When the call returns, the stop it has stored refers to a new
    [Stop] object holding the row of the stops table whose id is the
    integer read from the payload's [stop.stop_id], and the stored
    sequence number is the integer read from [stop_sequence], whatever
    its sign or size. *)
Theorem TripStop_stores_resolved_stop_and_sequence
    (w w' : TripStop.world) (self trip : TripStop.ref) (api_data : value)
    (k seq : Z) :
  (stop ← getitem api_data "stop"; getitem stop "stop_id" ≫= py_int) = Ok k ->
  getitem api_data "stop_sequence" ≫= py_int = Ok seq ->
  TripStop.set_from_api self api_data trip w = (w', Ok tt) ->
  exists ts' r row,
    TripStop.heap w' !! self = Some (TripStop.OTripStop ts')
    /\ TripStop.stop ts' = Some r
    /\ TripStop.heap w !! r = None
    /\ TripStop.heap w' !! r = Some (TripStop.OStop row)
    /\ In row (TripStop.stops_table w)
    /\ Stop.id row = Some k
    /\ TripStop.stop_sequence ts' = Some seq.
Proof.
  intros Hk Hseq Hrun.
  apply TripStop_set_from_api_Ok_inv_full in Hrun
    as (ts & tr & k' & row & arr & dep & arrival & departure & seq'
        & Hself & Htrip & Hk' & Hrow & _ & _ & _ & _ & Hseq' & ->).
  rewrite Hk in Hk'. injection Hk' as <-.
  rewrite Hseq in Hseq'. injection Hseq' as <-.
  destruct (has_id_filter k _ row Hrow) as [Hin Hid].
  destruct (populated_stop w self trip ts row arrival departure seq Hself)
    as [Hnew Hstop].
  eexists _, _, row. split; [apply populated_self; exact Hself|].
  cbn [TripStop.stop TripStop.stop_sequence]. auto 10.
Qed.

Lemma TripStop_stores_resolved_stop_witness :
  exists ts' r row,
    TripStop.heap
      (fst (TripStop.set_from_api 1%positive (sequenced_payload (-3))
              2%positive sample_world)) !! 1%positive
    = Some (TripStop.OTripStop ts')
    /\ TripStop.stop ts' = Some r
    /\ TripStop.heap sample_world !! r = None
    /\ TripStop.heap
         (fst (TripStop.set_from_api 1%positive (sequenced_payload (-3))
                 2%positive sample_world)) !! r
       = Some (TripStop.OStop row)
    /\ In row (TripStop.stops_table sample_world)
    /\ Stop.id row = Some 4150
    /\ TripStop.stop_sequence ts' = Some (-3).
Proof.
  apply (TripStop_stores_resolved_stop_and_sequence sample_world _
           1%positive 2%positive (sequenced_payload (-3)) 4150 (-3));
    [reflexivity | reflexivity | vm_compute; reflexivity].
Defined.

(** X15.  The two times a returning call has stored are proper times of
    day, whatever integers the payload gave: hour below 24, minute and
    second below 60, none negative. *)
Theorem TripStop_stored_times_are_valid
    (w w' : TripStop.world) (self trip : TripStop.ref) (api_data : value) :
  TripStop.set_from_api self api_data trip w = (w', Ok tt) ->
  exists ts' arrival departure,
    TripStop.heap w' !! self = Some (TripStop.OTripStop ts')
    /\ TripStop.arrival_time ts' = Some arrival
    /\ TripStop.departure_time ts' = Some departure
    /\ valid_time arrival
    /\ valid_time departure.
Proof.
  intros Hrun.
  apply TripStop_set_from_api_Ok_inv_full in Hrun
    as (ts & tr & k & row & arr & dep & arrival & departure & seq
        & Hself & _ & _ & _ & _ & Ha & _ & Hd & _ & ->).
  eexists _, arrival, departure.
  split; [apply populated_self; exact Hself|].
  cbn [TripStop.arrival_time TripStop.departure_time].
  split; [reflexivity|]. split; [reflexivity|].
  split; eapply time_of_secs_valid; eassumption.
Qed.

Lemma TripStop_stored_times_witness :
  exists ts' arrival departure,
    TripStop.heap
      (fst (TripStop.set_from_api 1%positive (trip_stop_payload (-1) 200000)
              2%positive sample_world)) !! 1%positive
    = Some (TripStop.OTripStop ts')
    /\ TripStop.arrival_time ts' = Some arrival
    /\ TripStop.departure_time ts' = Some departure
    /\ valid_time arrival
    /\ valid_time departure.
Proof.
  apply (TripStop_stored_times_are_valid sample_world _ 1%positive 2%positive
           (trip_stop_payload (-1) 200000)).
  vm_compute. reflexivity.
Defined.

(** ** Seconds and times of day *)

(** X16.  Whole days are dropped: within the range of integers that a
    double holds exactly, a value and the same value any number of days
    later (or earlier) are converted to the same time of day. *)
Theorem time_of_secs_drops_whole_days (secs days : Z) :
  - 2 ^ 53 <= secs <= 2 ^ 53 ->
  - 2 ^ 53 <= secs + 86400 * days <= 2 ^ 53 ->
  TripStop.time_of_secs (secs + 86400 * days) = TripStop.time_of_secs secs.
Proof.
  intros H1 H2.
  rewrite !time_of_secs_seconds_of_day by assumption.
  unfold seconds_of_day_time.
  replace (secs + 86400 * days) with (secs + days * 86400) by lia.
  rewrite Z.mod_add by lia. reflexivity.
Qed.

Lemma time_of_secs_drops_whole_days_witness :
  TripStop.time_of_secs (67504 + 86400 * 1) = TripStop.time_of_secs 67504
  /\ TripStop.time_of_secs (67504 + 86400 * (-1)) = TripStop.time_of_secs 67504.
Proof.
  split.
  - apply (time_of_secs_drops_whole_days 67504 1); lia.
  - apply (time_of_secs_drops_whole_days 67504 (-1)); lia.
Defined.

(** X17.  Nothing but the day is lost: in that range the stored hour,
    minute and second add up to the value modulo 86400, so a value
    within one day, from 0 to 86399, is given back exactly. *)
Theorem time_of_secs_recomposes (secs : Z) :
  - 2 ^ 53 <= secs <= 2 ^ 53 ->
  exists t,
    TripStop.time_of_secs secs = Ok t
    /\ 3600 * datetime.hour t + 60 * datetime.minute t + datetime.second t
       = secs mod 86400
    /\ (0 <= secs < 86400 ->
        3600 * datetime.hour t + 60 * datetime.minute t + datetime.second t
        = secs).
Proof.
  intros Hsecs. exists (seconds_of_day_time secs).
  split; [apply time_of_secs_seconds_of_day; exact Hsecs|].
  assert (Hsum : 3600 * datetime.hour (seconds_of_day_time secs)
                 + 60 * datetime.minute (seconds_of_day_time secs)
                 + datetime.second (seconds_of_day_time secs)
                 = secs mod 86400).
  { unfold seconds_of_day_time.
    cbn [datetime.hour datetime.minute datetime.second].
    set (rem := secs mod 86400). clearbody rem.
    Z.div_mod_to_equations. lia. }
  split; [exact Hsum|].
  intros Hday. rewrite Hsum. apply Z.mod_small. exact Hday.
Qed.

Lemma time_of_secs_recomposes_witness :
  exists t,
    TripStop.time_of_secs 67504 = Ok t
    /\ 3600 * datetime.hour t + 60 * datetime.minute t + datetime.second t
       = 67504 mod 86400
    /\ (0 <= 67504 < 86400 ->
        3600 * datetime.hour t + 60 * datetime.minute t + datetime.second t
        = 67504).
Proof. apply (time_of_secs_recomposes 67504). lia. Defined.

(** ** Fields of the payload that are not read *)

Lemma getitem_other_key (k key : string) (v : value)
    (entries : list (string * value)) :
  k <> key ->
  getitem (VDict ((k, v) :: entries)) key = getitem (VDict entries) key.
Proof.
  intros Hne. unfold getitem, dict_lookup. cbn [List.find fst].
  apply String.eqb_neq in Hne. rewrite Hne. reflexivity.
Qed.

(** X18.  A record without id is populated without a look at the
    payload's id field: putting any [stop_id] (for a route or a trip,
    any [route_id]) in front of the payload changes nothing of the
    outcome.  A trip's [trip_id] is not read at all, whether the trip
    has an id or not. *)
Theorem id_field_not_read_for_new_record
    (entries : list (string * value)) (v : value) :
  (forall self : Stop.t,
      Stop.id self = None ->
      Stop.set_from_api (VDict (("stop_id", v) :: entries)) self
      = Stop.set_from_api (VDict entries) self)
  /\ (forall self : Route.t,
      Route.id self = None ->
      Route.set_from_api (VDict (("route_id", v) :: entries)) self
      = Route.set_from_api (VDict entries) self)
  /\ (forall self : Trip.t,
      Trip.id self = None ->
      Trip.set_from_api (VDict (("route_id", v) :: entries)) self
      = Trip.set_from_api (VDict entries) self)
  /\ (forall self : Trip.t,
      Trip.set_from_api (VDict (("trip_id", v) :: entries)) self
      = Trip.set_from_api (VDict entries) self).
Proof.
  split; [|split; [|split]].
  - intros self Hid. unfold Stop.set_from_api.
    unfold mbind at 1, M_bind at 1, get. symmetry.
    unfold mbind at 1, M_bind at 1, get. rewrite Hid.
    rewrite !(getitem_other_key "stop_id") by discriminate. reflexivity.
  - intros self Hid. unfold Route.set_from_api.
    unfold mbind at 1, M_bind at 1, get. symmetry.
    unfold mbind at 1, M_bind at 1, get. rewrite Hid.
    rewrite !(getitem_other_key "route_id") by discriminate. reflexivity.
  - intros self Hid. unfold Trip.set_from_api.
    unfold mbind at 1, M_bind at 1, get. symmetry.
    unfold mbind at 1, M_bind at 1, get. rewrite Hid.
    rewrite !(getitem_other_key "route_id") by discriminate. reflexivity.
  - intros self. unfold Trip.set_from_api.
    rewrite !(getitem_other_key "trip_id") by discriminate. reflexivity.
Qed.

Lemma id_field_not_read_witness :
  Stop.set_from_api (VDict [("stop_id", VStr "n/a"); ("stop_code", VInt 7)])
                    (Stop.new 0)
  = Stop.set_from_api (VDict [("stop_code", VInt 7)]) (Stop.new 0).
Proof.
  apply (proj1 (id_field_not_read_for_new_record
                  [("stop_code", VInt 7)] (VStr "n/a")) (Stop.new 0)).
  reflexivity.
Defined.

(** ** When [TripStop.set_from_api] returns *)

(** X19.  The call returns exactly when [self] is a [TripStop], [trip]
    a [Trip], a stop id can be read from [stop.stop_id] and exactly one
    row of the stops table has it, both times can be read and converted
    and the sequence number can be read. *)
Theorem TripStop_returns_iff_can_populate
    (w : TripStop.world) (self trip : TripStop.ref) (api_data : value) :
  (exists w', TripStop.set_from_api self api_data trip w = (w', Ok tt))
  <-> can_populate w self trip api_data.
Proof.
  split.
  - intros [w' Hrun].
    apply TripStop_set_from_api_Ok_inv_full in Hrun
      as (ts & tr & k & row & arr & dep & arrival & departure & seq
          & H1 & H2 & H3 & H4 & H5 & H6 & H7 & H8 & H9 & _).
    exists ts, tr, k, row, arr, dep, arrival, departure, seq. auto 10.
  - intros (ts & tr & k & row & arr & dep & arrival & departure & seq
            & Hself & Htrip & Hk & Hrow & Ha & Harr & Hd & Hdep & Hseq).
    apply result_bind_Ok_inv in Hk as (stop_v & Hst & Hk).
    apply result_bind_Ok_inv in Hk as (id_v & Hid & Hk).
    apply result_bind_Ok_inv in Ha as (arrival_v & Ha & Hai).
    apply result_bind_Ok_inv in Hd as (departure_v & Hd & Hdi).
    apply result_bind_Ok_inv in Hseq as (seq_v & Hq & Hseq).
    eexists. eapply TripStop_set_from_api_run; eassumption.
Qed.

Lemma TripStop_returns_witness :
  exists w',
    TripStop.set_from_api 1%positive (trip_stop_payload 67504 67707) 2%positive
                          sample_world = (w', Ok tt).
Proof.
  apply (proj2 (TripStop_returns_iff_can_populate sample_world 1%positive
                  2%positive (trip_stop_payload 67504 67707))).
  exists (TripStop.new 0), (stored_trip 425677), 4150, (stored_stop 4150),
    67504, 67707, (datetime.mkTime 18 45 4), (datetime.mkTime 18 48 27), 2.
  repeat split; vm_compute; reflexivity.
Defined.

(** ** Two trip stops at one stop *)

(** X20.  Stops are not shared between trip stops.  When two trip stops
    are populated one after the other and both payloads name the same
    stop id, each ends up referring to a [Stop] object of its own; the
    two objects hold the same row of the stops table. *)
Theorem TripStops_get_separate_stop_objects
    (w w1 w2 : TripStop.world) (self1 self2 trip1 trip2 : TripStop.ref)
    (api1 api2 : value) (k : Z) :
  self1 <> self2 ->
  (stop ← getitem api1 "stop"; getitem stop "stop_id" ≫= py_int) = Ok k ->
  (stop ← getitem api2 "stop"; getitem stop "stop_id" ≫= py_int) = Ok k ->
  TripStop.set_from_api self1 api1 trip1 w = (w1, Ok tt) ->
  TripStop.set_from_api self2 api2 trip2 w1 = (w2, Ok tt) ->
  exists ts1 ts2 r1 r2 row,
    TripStop.heap w2 !! self1 = Some (TripStop.OTripStop ts1)
    /\ TripStop.heap w2 !! self2 = Some (TripStop.OTripStop ts2)
    /\ TripStop.stop ts1 = Some r1
    /\ TripStop.stop ts2 = Some r2
    /\ r1 <> r2
    /\ TripStop.heap w2 !! r1 = Some (TripStop.OStop row)
    /\ TripStop.heap w2 !! r2 = Some (TripStop.OStop row)
    /\ Stop.id row = Some k.
Proof.
  intros Hne Hk1 Hk2 Hrun1 Hrun2.
  pose proof (TripStop_set_from_api_frame self2 trip2 api2 w1) as Hframe.
  rewrite Hrun2 in Hframe. cbn [fst] in Hframe.
  destruct Hframe as (_ & Hothers & _).
  apply TripStop_set_from_api_Ok_inv_full in Hrun1
    as (ts & tr & k1 & row1 & arr1 & dep1 & a1 & d1 & seq1
        & Hself1 & _ & Hk1' & Hrow1 & _ & _ & _ & _ & _ & ->).
  rewrite Hk1 in Hk1'. injection Hk1' as <-.
  apply TripStop_set_from_api_Ok_inv_full in Hrun2
    as (ts' & tr' & k2 & row2 & arr2 & dep2 & a2 & d2 & seq2
        & Hself2 & _ & Hk2' & Hrow2 & _ & _ & _ & _ & _ & ->).
  rewrite Hk2 in Hk2'. injection Hk2' as <-.
  change (TripStop.stops_table (populated w self1 trip1 row1 a1 d1 seq1))
    with (TripStop.stops_table w) in Hrow2.
  rewrite Hrow1 in Hrow2. injection Hrow2 as <-.
  destruct (has_id_filter k _ row1 Hrow1) as [_ Hid].
  set (w1 := populated w self1 trip1 row1 a1 d1 seq1) in *.
  pose proof (populated_self w self1 trip1 ts row1 a1 d1 seq1 Hself1) as Hs1.
  destruct (populated_stop w self1 trip1 ts row1 a1 d1 seq1 Hself1)
    as [_ Hr1].
  fold w1 in Hs1, Hr1.
  pose proof (populated_self w1 self2 trip2 ts' row1 a2 d2 seq2 Hself2) as Hs2.
  destruct (populated_stop w1 self2 trip2 ts' row1 a2 d2 seq2 Hself2)
    as [Hnew2 Hr2].
  set (r1 := fresh (dom (TripStop.heap (trip_assigned w self1 trip1)))) in *.
  set (r2 := fresh (dom (TripStop.heap (trip_assigned w1 self2 trip2)))) in *.
  assert (Hr12 : r1 <> r2).
  { intros Heq. rewrite <- Heq in Hnew2. rewrite Hr1 in Hnew2.
    discriminate Hnew2. }
  assert (Hr1s : r1 <> self2).
  { intros Heq. rewrite Heq in Hr1. rewrite Hself2 in Hr1. discriminate Hr1. }
  eexists _, _, r1, r2, row1.
  split; [apply Hothers; [exact Hne | exact Hs1]|].
  split; [exact Hs2|].
  cbn [TripStop.stop].
  split; [reflexivity|]. split; [reflexivity|]. split; [exact Hr12|].
  split; [apply Hothers; [exact Hr1s | exact Hr1]|].
  split; [exact Hr2 | exact Hid].
Qed.

Lemma TripStops_separate_stops_witness :
  exists ts1 ts2 r1 r2 row,
    TripStop.heap
      (fst (TripStop.set_from_api 3%positive (sequenced_payload 5) 2%positive
              (fst (TripStop.set_from_api 1%positive (sequenced_payload 4)
                      2%positive two_tripstops_world)))) !! 1%positive
    = Some (TripStop.OTripStop ts1)
    /\ TripStop.heap
         (fst (TripStop.set_from_api 3%positive (sequenced_payload 5) 2%positive
                 (fst (TripStop.set_from_api 1%positive (sequenced_payload 4)
                         2%positive two_tripstops_world)))) !! 3%positive
       = Some (TripStop.OTripStop ts2)
    /\ TripStop.stop ts1 = Some r1
    /\ TripStop.stop ts2 = Some r2
    /\ r1 <> r2
    /\ TripStop.heap
         (fst (TripStop.set_from_api 3%positive (sequenced_payload 5) 2%positive
                 (fst (TripStop.set_from_api 1%positive (sequenced_payload 4)
                         2%positive two_tripstops_world)))) !! r1
       = Some (TripStop.OStop row)
    /\ TripStop.heap
         (fst (TripStop.set_from_api 3%positive (sequenced_payload 5) 2%positive
                 (fst (TripStop.set_from_api 1%positive (sequenced_payload 4)
                         2%positive two_tripstops_world)))) !! r2
       = Some (TripStop.OStop row)
    /\ Stop.id row = Some 4150.
Proof.
  apply (TripStops_get_separate_stop_objects two_tripstops_world
           (fst (TripStop.set_from_api 1%positive (sequenced_payload 4)
                   2%positive two_tripstops_world))
           (fst (TripStop.set_from_api 3%positive (sequenced_payload 5)
                   2%positive
                   (fst (TripStop.set_from_api 1%positive (sequenced_payload 4)
                           2%positive two_tripstops_world))))
           1%positive 3%positive 2%positive 2%positive
           (sequenced_payload 4) (sequenced_payload 5) 4150);
    [discriminate | reflexivity | reflexivity
    | vm_compute; reflexivity | vm_compute; reflexivity].
Defined.
